(** * Liquid EVM wallets of use-wallet: a shallow embedding

    This development models the cross-chain signing bridge of the
    [LiquidEvmBaseWallet] class (address derivation and its reverse map,
    transaction-group classification, the chain guard, the batched
    [signTransactions] orchestration and session resume), together with the
    parts of the [MetaMaskWallet] and [RainbowKitWallet] classes that the
    properties below mention.  The asynchronous methods are written in a
    state-and-exception monad whose state holds the wallet instance's
    [evmAddressMap], the lazily initialised SDK handle and a trace of the
    external requests issued (provider RPC calls, SDK calls, hooks, store
    mutations). *)

From Stdlib Require Import String Ascii ZArith NArith List Bool.
From Stdlib Require Strings.Byte.
From stdpp Require Import base gmap strings list pretty.

Open Scope string_scope.

(* ------------------------------------------------------------------ *)
(** ** Data model *)

(** An [algosdk.Transaction], reduced to what the wallet inspects: its
    sender.  The identifier keeps distinct transactions apart. *)
Record Transaction := mkTxn { txn_id : nat; sender : string }.

(** A binary-encoded transaction as [msgpackRawDecode] sees it: an unsigned
    transaction, a signed wrapper around a transaction, or bytes that do
    not decode (the decoder throws). *)
Inductive EncodedTxn :=
| EncUnsigned (t : Transaction)
| EncSigned (t : Transaction)
| EncMalformed.

(** The [T | T[]] shape of a transaction group: flat, or nested one level
    (a list of atomic groups). *)
Inductive TxnNest (A : Type) :=
| Flat (l : list A)
| Nested (ls : list (list A)).
Arguments Flat {A} l.
Arguments Nested {A} ls.

(** [txnGroup] of [signTransactions]: [isTransactionArray] decides which of
    the two encodings the caller used. *)
Inductive TxnGroupArg :=
| GroupTxns (g : TxnNest Transaction)
| GroupEncoded (g : TxnNest EncodedTxn).

(** A value thrown in JavaScript: an object with optional [message] and
    [code] properties, or [null]/[undefined]. *)
Inductive JsError :=
| JsErrorObj (name : string) (message : option string) (code : option Z)
| JsNullish.

(** An EIP-1193 provider error: always an object with an optional numeric
    [code]. *)
Record ProviderError := mkProviderError {
  pe_code : option Z;
  pe_message : option string }.

Definition providerErrorToJs (e : ProviderError) : JsError :=
  JsErrorObj "ProviderRpcError" (pe_message e) (pe_code e).

(** A signed transaction blob returned by the Liquid EVM SDK. *)
Record SignedBlob := mkSigned { signed_txn : Transaction; signed_by : string }.

(** [WalletAccount.metadata]: a record with an [evmAddress] field and the
    optional connector name and icon. *)
Record AccountMetadata := mkMetadata {
  md_evmAddress : option string;
  md_connectorName : option string;
  md_connectorIcon : option string }.

Record WalletAccount := mkAccount {
  acc_name : string;
  acc_address : string;
  acc_metadata : option AccountMetadata }.

(** [store.state.wallets[this.id]]. *)
Record WalletState := mkWalletState {
  ws_accounts : list WalletAccount;
  ws_activeAccount : option WalletAccount }.

(** [connectorInfo?: { name?: string; icon?: string }]. *)
Record ConnectorInfo := mkConnectorInfo {
  ci_name : option string;
  ci_icon : option string }.

Definition noConnectorInfo : ConnectorInfo := mkConnectorInfo None None.

(** Outcome of an operation that may throw. *)
Inductive Result (A : Type) :=
| Ok (a : A)
| Throw (e : JsError).
Arguments Ok {A} a.
Arguments Throw {A} e.

(** External requests and side effects, in the order they are issued. *)
Inductive Event :=
| EvChainIdRead                                   (* eth_chainId *)
| EvSwitchChain (chainId : string)                (* wallet_switchEthereumChain *)
| EvAddChain                                      (* wallet_addEthereumChain *)
| EvGetAddress (evmAddress : string)              (* liquidEvmSdk.getAddress *)
| EvBeforeSign                                    (* onBeforeSign hook *)
| EvSignTxn (evmAddress : string) (txns : list Transaction) (* evmSdk.signTxn *)
| EvAfterSign (success : bool) (msg : option string) (* onAfterSign hook *)
| EvSessionMismatch                               (* logger.warn on resume *)
| EvSetAccounts (accounts : list WalletAccount)   (* setAccountsFn *)
| EvAddWallet (ws : WalletState)                  (* addWallet(store, ..) *)
| EvNotifyConnect (evm alg : string)             (* onConnect hook *)
| EvOnDisconnect                                  (* this.onDisconnect() *)
| EvUpdateMetadata (name icon : option string)    (* this.updateMetadata(updates) *)
| EvPersonalSign (message evmAddress : string)   (* personal_sign *)
| EvWagmiConnect.                                 (* wagmiConnect(.., connectors[0]) *)

(** The provider as seen by [ensureAlgorandChain]: the answer to
    [eth_chainId] and the outcome of the switch and add requests
    ([None] = the request succeeded). *)
Record Provider := mkProvider {
  prov_chainId : string + ProviderError;
  prov_switch : option ProviderError;
  prov_add : option ProviderError }.

(** The collaborators of a wallet instance. *)
Record Env := mkEnv {
  env_addresses : list string;                 (* this.addresses *)
  env_walletState : option WalletState;        (* store.state.wallets[this.id] *)
  env_walletName : string;                     (* this.metadata.name *)
  env_sdkInit : option JsError;                (* failure of the lazy SDK import *)
  env_getAddress : string -> Result string;    (* liquidEvmSdk.getAddress *)
  env_signTxn : string -> list Transaction -> Result (list SignedBlob);
  env_optionsBeforeSign : option (TxnGroupArg -> option (list nat) -> option JsError);
  env_managerBeforeSign : option (TxnGroupArg -> option (list nat) -> option JsError);
  env_optionsAfterSign : option (bool -> option string -> option JsError);
  env_managerAfterSign : option (bool -> option string -> option JsError);
  env_provider : Provider;                     (* getEvmProvider() *)
  env_algorandChainIdHex : string }.           (* ALGORAND_CHAIN_ID_HEX *)

(** Mutable fields of the wallet instance, plus the trace of requests. *)
Record WState := mkWState {
  st_evmAddressMap : gmap string string;       (* algorandAddress -> evmAddress *)
  st_sdkReady : bool;                          (* this.liquidEvmSdk !== null *)
  st_connecting : bool;                        (* RainbowKitWallet._connecting *)
  st_trace : list Event }.

(* ------------------------------------------------------------------ *)
(** ** The state-and-exception monad *)

Definition M (A : Type) : Type := WState -> Result A * WState.

Definition ret {A} (a : A) : M A := fun s => (Ok a, s).
Definition bind {A B} (m : M A) (k : A -> M B) : M B :=
  fun s => match m s with
           | (Ok a, s') => k a s'
           | (Throw e, s') => (Throw e, s')
           end.
Definition throw {A} (e : JsError) : M A := fun s => (Throw e, s).

Notation "x <-- m ;; k" := (bind m (fun x => k))
  (at level 100, m at next level, right associativity).
Notation "m ;;; k" := (bind m (fun _ => k))
  (at level 100, right associativity).

(** [try { body } catch (error) { handler }] *)
Definition tryCatch {A} (body : M A) (handler : JsError -> M A) : M A :=
  fun s => match body s with
           | (Ok a, s') => (Ok a, s')
           | (Throw e, s') => handler e s'
           end.

Definition liftR {A} (r : Result A) : M A :=
  fun s => (r, s).

Definition emit (ev : Event) : M unit :=
  fun s => (Ok tt, mkWState (st_evmAddressMap s) (st_sdkReady s)
                            (st_connecting s) (st_trace s ++ [ev])).

Definition getMap : M (gmap string string) :=
  fun s => (Ok (st_evmAddressMap s), s).

Definition modifyMap (f : gmap string string -> gmap string string) : M unit :=
  fun s => (Ok tt, mkWState (f (st_evmAddressMap s)) (st_sdkReady s)
                            (st_connecting s) (st_trace s)).

Definition setSdkReady : M unit :=
  fun s => (Ok tt, mkWState (st_evmAddressMap s) true (st_connecting s) (st_trace s)).

Definition setConnecting (b : bool) : M unit :=
  fun s => (Ok tt, mkWState (st_evmAddressMap s) (st_sdkReady s) b (st_trace s)).

Definition getConnecting : M bool :=
  fun s => (Ok (st_connecting s), s).

(* ------------------------------------------------------------------ *)
(** ** JavaScript helpers *)

(** [arr.includes(x)] on arrays of strings and of numbers. *)
Definition includesStr (xs : list string) (x : string) : bool :=
  existsb (String.eqb x) xs.
Definition includesNat (xs : list nat) (x : nat) : bool :=
  existsb (Nat.eqb x) xs.
Definition includesZ (xs : list Z) (x : option Z) : bool :=
  match x with
  | Some c => existsb (Z.eqb c) xs
  | None => false          (* [undefined] is in no array of numbers *)
  end.

(** Truthiness of a [string | undefined]: the empty string is falsy. *)
Definition truthyStr (o : option string) : bool :=
  match o with
  | Some s => negb (String.eqb s "")
  | None => false
  end.

(** [String.prototype.toLowerCase] on ASCII text. *)
Definition asciiToLower (c : ascii) : ascii :=
  let n := nat_of_ascii c in
  if (65 <=? n)%nat && (n <=? 90)%nat then ascii_of_nat (n + 32)%nat else c.

Fixpoint toLowerCase (s : string) : string :=
  match s with
  | EmptyString => EmptyString
  | String c s' => String (asciiToLower c) (toLowerCase s')
  end.

(** [error.message]: reading a property of [null]/[undefined] throws a
    [TypeError]. *)
Definition typeErrorMessage : JsError :=
  JsErrorObj "TypeError" (Some "Cannot read properties of undefined (reading 'message')") None.

Definition errorMessage (e : JsError) : Result (option string) :=
  match e with
  | JsErrorObj _ m _ => Ok m
  | JsNullish => Throw typeErrorMessage
  end.

(** [a ?? b] on optional hooks. *)
Definition coalesce {A} (a b : option A) : option A :=
  match a with Some _ => a | None => b end.

(** [!indexesToSign || indexesToSign.includes(index)] *)
Definition isIndexMatch (indexesToSign : option (list nat)) (index : nat) : bool :=
  match indexesToSign with
  | None => true
  | Some f => includesNat f index
  end.

(* ------------------------------------------------------------------ *)
(** ** Transaction groups *)

(** Modelled from the spec: [flattenTxnGroup] of [src/utils] (not among
    the sources) flattens a group nested one level into a flat sequence
    and leaves a flat group as it is (spec 4.3, "flatten one level"). *)
Definition flattenTxnGroup {A} (g : TxnNest A) : list A :=
  match g with
  | Flat l => l
  | Nested ls => concat ls
  end.

(** [msgpackRawDecode] + [isSignedTxn] + [decodeSignedTransaction(..).txn]
    or [decodeUnsignedTransaction]: the transaction and whether it was
    already signed. *)
Definition decodeTxn (b : EncodedTxn) : Result (Transaction * bool) :=
  match b with
  | EncUnsigned t => Ok (t, false)
  | EncSigned t => Ok (t, true)
  | EncMalformed => Throw (JsErrorObj "Error" (Some "Invalid msgpack") None)
  end.

(** [flatEncoded.map(...)]: decoding stops at the first blob that throws. *)
Fixpoint decodeAll (bs : list EncodedTxn) : Result (list Transaction) :=
  match bs with
  | [] => Ok []
  | b :: rest =>
      match decodeTxn b with
      | Throw e => Throw e
      | Ok (t, _) =>
          match decodeAll rest with
          | Ok ts => Ok (t :: ts)
          | Throw e => Throw e
          end
      end
  end.

(** [LiquidEvmBaseWallet.processTxns]: the [forEach] loop with its index,
    pushing onto [txnsToSign]. *)
Fixpoint processTxnsLoop (addresses : list string) (indexesToSign : option (list nat))
    (index : nat) (txns : list Transaction) (txnsToSign : list Transaction)
    : list Transaction :=
  match txns with
  | [] => txnsToSign
  | txn :: rest =>
      let canSignTxn := includesStr addresses (sender txn) in
      processTxnsLoop addresses indexesToSign (S index) rest
        (if isIndexMatch indexesToSign index && canSignTxn
         then txnsToSign ++ [txn] else txnsToSign)
  end.

Definition processTxns (addresses : list string) (txnGroup : list Transaction)
    (indexesToSign : option (list nat)) : list Transaction :=
  processTxnsLoop addresses indexesToSign 0 txnGroup [].

(** [LiquidEvmBaseWallet.processEncodedTxns]: the same loop over blobs,
    which also excludes already-signed entries. *)
Fixpoint processEncodedTxnsLoop (addresses : list string)
    (indexesToSign : option (list nat)) (index : nat) (txnGroup : list EncodedTxn)
    (txnsToSign : list Transaction) : Result (list Transaction) :=
  match txnGroup with
  | [] => Ok txnsToSign
  | txnBuffer :: rest =>
      match decodeTxn txnBuffer with
      | Throw e => Throw e
      | Ok (txn, isSigned) =>
          let canSignTxn := negb isSigned && includesStr addresses (sender txn) in
          processEncodedTxnsLoop addresses indexesToSign (S index) rest
            (if isIndexMatch indexesToSign index && canSignTxn
             then txnsToSign ++ [txn] else txnsToSign)
      end
  end.

Definition processEncodedTxns (addresses : list string) (txnGroup : list EncodedTxn)
    (indexesToSign : option (list nat)) : Result (list Transaction) :=
  processEncodedTxnsLoop addresses indexesToSign 0 txnGroup [].

(* ------------------------------------------------------------------ *)
(** ** LiquidEvmBaseWallet *)

Section LiquidEvmBaseWallet.

Variable env : Env.

(** [initializeEvmSdk]: lazy, memoised creation of the SDK handle. *)
Definition initializeEvmSdk : M unit :=
  fun s =>
    if st_sdkReady s then (Ok tt, s)
    else match env_sdkInit env with
         | Some e => (Throw e, s)
         | None => setSdkReady s
         end.

(** Error codes that mean "chain not added": 4902 (EIP-3085), -32600
    (Rainbow and others), -32603 (some wallets). *)
Definition chainUnknownCodes : list Z := [4902%Z; (-32600)%Z; (-32603)%Z].

Definition providerResult {A} (r : A + ProviderError) : Result A :=
  match r with
  | inl a => Ok a
  | inr e => Throw (providerErrorToJs e)
  end.

(** [ensureAlgorandChain]: read the chain id, switch if it differs, add the
    chain when the switch fails with a "chain unknown" code. *)
Definition ensureAlgorandChain : M unit :=
  let provider := env_provider env in
  let ALGORAND_CHAIN_ID_HEX := env_algorandChainIdHex env in
  emit EvChainIdRead ;;;
  currentChainId <-- liftR (providerResult (prov_chainId provider)) ;;
  if String.eqb (toLowerCase currentChainId) (toLowerCase ALGORAND_CHAIN_ID_HEX)
  then ret tt
  else
    emit (EvSwitchChain ALGORAND_CHAIN_ID_HEX) ;;;
    match prov_switch provider with
    | None => ret tt
    | Some switchError =>
        if includesZ chainUnknownCodes (pe_code switchError) then
          emit EvAddChain ;;;
          match prov_add provider with
          | None => ret tt
          | Some addError => throw (providerErrorToJs addError)
          end
        else throw (providerErrorToJs switchError)
    end.

(** The metadata record built for a derived account. *)
Definition accountMetadata (evmAddress : string) (connectorInfo : option ConnectorInfo)
    : AccountMetadata :=
  let name := match connectorInfo with Some c => ci_name c | None => None end in
  let icon := match connectorInfo with Some c => ci_icon c | None => None end in
  mkMetadata (Some evmAddress)
    (if truthyStr name then name else None)
    (if truthyStr icon then icon else None).

Fixpoint deriveLoop (connectorInfo : option ConnectorInfo) (evmAddresses : list string)
    (walletAccounts : list WalletAccount) : M (list WalletAccount) :=
  match evmAddresses with
  | [] => ret walletAccounts
  | evmAddress :: rest =>
      emit (EvGetAddress evmAddress) ;;;
      algorandAddress <-- liftR (env_getAddress env evmAddress) ;;
      modifyMap (<[algorandAddress := evmAddress]>) ;;;
      deriveLoop connectorInfo rest
        (walletAccounts ++
           [mkAccount (env_walletName env ++ " " ++ evmAddress) algorandAddress
              (Some (accountMetadata evmAddress connectorInfo))])
  end.

(** [deriveAlgorandAccounts(evmAddresses, connectorInfo?)]. *)
Definition deriveAlgorandAccounts (evmAddresses : list string)
    (connectorInfo : option ConnectorInfo) : M (list WalletAccount) :=
  initializeEvmSdk ;;;
  deriveLoop connectorInfo evmAddresses [].

(** The loop "rebuild evmAddressMap from persisted account metadata",
    shared by [signTransactions] and [resumeWithAccounts]. *)
Fixpoint rebuildEvmAddressMap (accounts : list WalletAccount) (m : gmap string string)
    : gmap string string :=
  match accounts with
  | [] => m
  | account :: rest =>
      let addr := match acc_metadata account with
                  | Some md => md_evmAddress md
                  | None => None
                  end in
      rebuildEvmAddressMap rest
        (match addr with
         | Some a => if truthyStr addr then <[acc_address account := a]> m else m
         | None => m
         end)
  end.

(** Lines resolving [evmAddress] in [signTransactions]: the map, then the
    fallback rebuild from the persisted wallet state. *)
Definition lookupEvmAddress (algorandAddress : string) : M (option string) :=
  m <-- getMap ;;
  let evmAddress := m !! algorandAddress in
  if truthyStr evmAddress then ret evmAddress
  else match env_walletState env with
       | None => ret evmAddress
       | Some walletState =>
           modifyMap (rebuildEvmAddressMap (ws_accounts walletState)) ;;;
           m' <-- getMap ;;
           ret (m' !! algorandAddress)
       end.

Definition noEvmAddressError (algorandAddress : string) : JsError :=
  JsErrorObj "Error"
    (Some ("No EVM address found for Algorand address: " ++ algorandAddress)) None.

Definition onBeforeSign := coalesce (env_optionsBeforeSign env) (env_managerBeforeSign env).
Definition onAfterSign := coalesce (env_optionsAfterSign env) (env_managerAfterSign env).

(** [await onBeforeSign(txnGroup, indexesToSign)] when a hook is set. *)
Definition runBeforeSign (txnGroup : TxnGroupArg) (indexesToSign : option (list nat))
    : M unit :=
  match onBeforeSign with
  | None => ret tt
  | Some hook =>
      emit EvBeforeSign ;;;
      match hook txnGroup indexesToSign with
      | None => ret tt
      | Some e => throw e
      end
  end.

(** [evmSdk.signTxn({ evmAddress, txns: flatTxns, signMessage })]. *)
Definition callSignTxn (evmAddress : string) (flatTxns : list Transaction)
    : M (list SignedBlob) :=
  emit (EvSignTxn evmAddress flatTxns) ;;;
  liftR (env_signTxn env evmAddress flatTxns).

(** [try { onAfterSign(true) } catch (e) {}]: the hook runs, whatever it
    throws is dropped. *)
Definition runAfterSignSuccess : M unit :=
  match onAfterSign with
  | None => ret tt
  | Some _ => emit (EvAfterSign true None)
  end.

(** [flatTxns.map((txn, index) => ...)]: the result array. *)
Fixpoint buildResult (indexesToSign : option (list nat)) (signedBlobs : list SignedBlob)
    (index : nat) (flatTxns : list Transaction) : list (option SignedBlob) :=
  match flatTxns with
  | [] => []
  | txn :: rest =>
      (if isIndexMatch indexesToSign index && includesStr (env_addresses env) (sender txn)
       then nth_error signedBlobs index else None)
      :: buildResult indexesToSign signedBlobs (S index) rest
  end.

(** The [catch (error)] block: the failure hook inside its own
    [try {} catch {}], then [logger.error(.., error.message)] and
    [throw error]. *)
Definition signFailure (error : JsError) : M (list (option SignedBlob)) :=
  (match onAfterSign with
   | None => ret tt
   | Some _ =>
       match errorMessage error with
       | Throw _ => ret tt
       | Ok msg => emit (EvAfterSign false msg)
       end
   end) ;;;
  match errorMessage error with
  | Throw te => throw te
  | Ok _ => throw error
  end.

(** [flatTxns] of [signTransactions]. *)
Definition flatTransactions (txnGroup : TxnGroupArg) : Result (list Transaction) :=
  match txnGroup with
  | GroupTxns g => Ok (flattenTxnGroup g)
  | GroupEncoded g => decodeAll (flattenTxnGroup g)
  end.

(** [txnsToSign] of [signTransactions]. *)
Definition selectTxnsToSign (txnGroup : TxnGroupArg) (flatTxns : list Transaction)
    (indexesToSign : option (list nat)) : Result (list Transaction) :=
  match txnGroup with
  | GroupTxns _ => Ok (processTxns (env_addresses env) flatTxns indexesToSign)
  | GroupEncoded g =>
      processEncodedTxns (env_addresses env) (flattenTxnGroup g) indexesToSign
  end.

(** The [try] block of [signTransactions(txnGroup, indexesToSign?)]. *)
Definition signTransactionsTry (txnGroup : TxnGroupArg) (indexesToSign : option (list nat))
    : M (list (option SignedBlob)) :=
    (initializeEvmSdk ;;;
     flatTxns <-- liftR (flatTransactions txnGroup) ;;
     txnsToSign <-- liftR (selectTxnsToSign txnGroup flatTxns indexesToSign) ;;
     match txnsToSign with
     | [] => ret (map (fun _ => None) flatTxns)
     | firstTxn :: _ =>
         let algorandAddress := sender firstTxn in
         evmAddress <-- lookupEvmAddress algorandAddress ;;
         match evmAddress with
         | Some evm =>
             if truthyStr evmAddress then
               runBeforeSign txnGroup indexesToSign ;;;
               ensureAlgorandChain ;;;
               signedBlobs <-- callSignTxn evm flatTxns ;;
               runAfterSignSuccess ;;;
               ret (buildResult indexesToSign signedBlobs 0 flatTxns)
             else throw (noEvmAddressError algorandAddress)
         | None => throw (noEvmAddressError algorandAddress)
         end
     end).

(** [signTransactions(txnGroup, indexesToSign?)]. *)
Definition signTransactions (txnGroup : TxnGroupArg) (indexesToSign : option (list nat))
    : M (list (option SignedBlob)) :=
  tryCatch (signTransactionsTry txnGroup indexesToSign) signFailure.

(** Modelled from the spec: [compareAccounts] of [src/utils] (not among the
    sources) compares two account lists by address-set equality, ignoring
    order (spec 4.5). *)
Definition compareAccounts (accounts compareTo : list WalletAccount) : bool :=
  forallb (fun a => includesStr (map acc_address compareTo) (acc_address a)) accounts &&
  forallb (fun a => includesStr (map acc_address accounts) (acc_address a)) compareTo.

(** [resumeWithAccounts(evmAddresses, setAccountsFn, connectorInfo?)];
    the call of [setAccountsFn] is the [EvSetAccounts] event. *)
Definition resumeWithAccounts (evmAddresses : list string)
    (connectorInfo : option ConnectorInfo) : M unit :=
  match env_walletState env with
  | None => ret tt
  | Some walletState =>
      modifyMap (rebuildEvmAddressMap (ws_accounts walletState)) ;;;
      walletAccounts <-- deriveAlgorandAccounts evmAddresses connectorInfo ;;
      (if compareAccounts walletAccounts (ws_accounts walletState)
       then ret tt else emit EvSessionMismatch) ;;;
      emit (EvSetAccounts walletAccounts)
  end.

End LiquidEvmBaseWallet.

(* ------------------------------------------------------------------ *)
(** ** Connect paths *)

(** [try { body } finally { fin }]. *)
Definition tryFinally {A} (body : M A) (fin : M unit) : M A :=
  fun s => match body s with
           | (r, s') =>
               match fin s' with
               | (Ok _, s'') => (r, s'')
               | (Throw e, s'') => (Throw e, s'')
               end
           end.

(** [activeAccount.address] on [undefined]. *)
Definition typeErrorAddress : JsError :=
  JsErrorObj "TypeError" (Some "Cannot read properties of undefined (reading 'address')") None.

(** [RainbowKitWallet.applyConnectorMetadata]: [updateMetadata] with the
    truthy fields, when there is one. *)
Definition applyConnectorMetadata (connectorInfo : ConnectorInfo) : M unit :=
  let name := if truthyStr (ci_name connectorInfo) then ci_name connectorInfo else None in
  let icon := if truthyStr (ci_icon connectorInfo) then ci_icon connectorInfo else None in
  if truthyStr name || truthyStr icon then emit (EvUpdateMetadata name icon) else ret tt.

(** [this.metadata.name] after [applyConnectorMetadata(connectorInfo)]:
    [updateMetadata] (of [BaseWallet], not among the sources) merges the
    updates into [this.metadata], so a non-empty connector name becomes the
    wallet name that [deriveAlgorandAccounts] reads next. *)
Definition withConnectorName (env : Env) (connectorInfo : ConnectorInfo) : Env :=
  match ci_name connectorInfo with
  | Some name =>
      if truthyStr (Some name) then
        mkEnv (env_addresses env) (env_walletState env) name (env_sdkInit env)
          (env_getAddress env) (env_signTxn env) (env_optionsBeforeSign env)
          (env_managerBeforeSign env) (env_optionsAfterSign env) (env_managerAfterSign env)
          (env_provider env) (env_algorandChainIdHex env)
      else env
  | None => env
  end.

(** [RainbowKitWallet.connect]; [evmAddresses] and [connectorInfo] are
    what [getConnectedEvmAddresses()] resolved to (the wagmi state). *)
Definition rainbowKitConnect (env : Env) (evmAddresses : list string)
    (connectorInfo : ConnectorInfo) : M (list WalletAccount) :=
  connecting <-- getConnecting ;;
  if connecting then ret []
  else
    setConnecting true ;;;
    tryFinally
      (initializeEvmSdk env ;;;
       applyConnectorMetadata connectorInfo ;;;
       walletAccounts <-- deriveAlgorandAccounts (withConnectorName env connectorInfo)
                            evmAddresses (Some connectorInfo) ;;
       let activeAccount := head walletAccounts in
       emit (EvAddWallet (mkWalletState walletAccounts activeAccount)) ;;;
       match evmAddresses, activeAccount with
       | evm0 :: _, Some acc0 =>
           emit (EvNotifyConnect evm0 (acc_address acc0)) ;;; ret walletAccounts
       | _, _ => throw typeErrorAddress        (* activeAccount.address *)
       end)
      (setConnecting false).

(** [MetaMaskWallet.deriveAlgorandAccounts]: accounts named
    "<wallet> Account <i+1>", with no metadata. *)
Fixpoint metaMaskDeriveLoop (env : Env) (i : nat) (evmAddresses : list string)
    (walletAccounts : list WalletAccount) : M (list WalletAccount) :=
  match evmAddresses with
  | [] => ret walletAccounts
  | evmAddress :: rest =>
      emit (EvGetAddress evmAddress) ;;;
      algorandAddress <-- liftR (env_getAddress env evmAddress) ;;
      modifyMap (<[algorandAddress := evmAddress]>) ;;;
      metaMaskDeriveLoop env (S i) rest
        (walletAccounts ++
           [mkAccount (env_walletName env ++ " Account " ++ pretty (S i))
              algorandAddress None])
  end.

Definition metaMaskDeriveAlgorandAccounts (env : Env) (evmAddresses : list string)
    : M (list WalletAccount) :=
  initializeEvmSdk env ;;;
  metaMaskDeriveLoop env 0 evmAddresses [].

Definition noAccountsError : JsError :=
  JsErrorObj "Error" (Some "No accounts found!") None.

(** [MetaMaskWallet.connect]; [evmAddresses] is the answer to
    [eth_requestAccounts]. *)
Definition metaMaskConnect (env : Env) (evmAddresses : list string)
    : M (list WalletAccount) :=
  initializeEvmSdk env ;;;
  match evmAddresses with
  | [] => throw noAccountsError
  | _ :: _ =>
      walletAccounts <-- metaMaskDeriveAlgorandAccounts env evmAddresses ;;
      emit (EvAddWallet (mkWalletState walletAccounts (head walletAccounts))) ;;;
      ret walletAccounts
  end.

(* ------------------------------------------------------------------ *)
(** ** MetaMaskWallet: signing and session resume *)

(** [MetaMaskWallet.signTransactions]: the classification and the result
    array are those of the base class, but the EVM address is read from the
    map alone (no fallback to the persisted accounts), there are no sign
    hooks and no chain guard, and the [catch] block only logs
    [error.message] before rethrowing. *)
Definition metaMaskSignTransactions (env : Env) (txnGroup : TxnGroupArg)
    (indexesToSign : option (list nat)) : M (list (option SignedBlob)) :=
  tryCatch
    (initializeEvmSdk env ;;;
     flatTxns <-- liftR (flatTransactions txnGroup) ;;
     txnsToSign <-- liftR (selectTxnsToSign env txnGroup flatTxns indexesToSign) ;;
     match txnsToSign with
     | [] => ret (map (fun _ => None) flatTxns)
     | firstTxn :: _ =>
         let algorandAddress := sender firstTxn in
         m <-- getMap ;;
         let evmAddress := m !! algorandAddress in
         match evmAddress with
         | Some evm =>
             if truthyStr evmAddress then
               signedBlobs <-- callSignTxn env evm flatTxns ;;
               ret (buildResult env indexesToSign signedBlobs 0 flatTxns)
             else throw (noEvmAddressError algorandAddress)
         | None => throw (noEvmAddressError algorandAddress)
         end
     end)
    (fun error =>
       match errorMessage error with
       | Throw te => throw te
       | Ok _ => throw error
       end).

(** The [catch (error)] block of the [resumeSession] methods:
    [logger.error(.., error.message)], [this.onDisconnect()], [throw error]. *)
Definition resumeFailure (error : JsError) : M unit :=
  match errorMessage error with
  | Throw te => throw te
  | Ok _ => emit EvOnDisconnect ;;; throw error
  end.

(** [MetaMaskWallet.resumeSession]; [sdkError] and [providerError] are the
    failures of [initializeMetamaskSDK()] and [getProvider()], if any, and
    [ethAccounts] the answer to [eth_accounts].  [setAccounts] is the
    [EvSetAccounts] event. *)
Definition metaMaskResumeSession (env : Env) (sdkError providerError : option JsError)
    (ethAccounts : Result (list string)) : M unit :=
  tryCatch
    (match env_walletState env with
     | None => ret tt
     | Some walletState =>
         (match sdkError with Some e => throw e | None => ret tt end) ;;;
         initializeEvmSdk env ;;;
         (match providerError with Some e => throw e | None => ret tt end) ;;;
         evmAddresses <-- liftR ethAccounts ;;
         match evmAddresses with
         | [] => throw noAccountsError
         | _ :: _ =>
             walletAccounts <-- metaMaskDeriveAlgorandAccounts env evmAddresses ;;
             if compareAccounts walletAccounts (ws_accounts walletState) then ret tt
             else emit EvSessionMismatch ;;; emit (EvSetAccounts walletAccounts)
         end
     end)
    resumeFailure.

(* ------------------------------------------------------------------ *)
(** ** RainbowWallet: session resume *)

(** [RainbowWallet.resumeSession]; [initError] and [providerError] are the
    failures of [initializeProvider()] and [getProvider()], if any, and
    [ethAccounts] the answer to [eth_accounts]. *)
Definition rainbowResumeSession (env : Env) (initError providerError : option JsError)
    (ethAccounts : Result (list string)) : M unit :=
  tryCatch
    (match env_walletState env with
     | None => ret tt
     | Some _ =>
         (match initError with Some e => throw e | None => ret tt end) ;;;
         initializeEvmSdk env ;;;
         (match providerError with Some e => throw e | None => ret tt end) ;;;
         evmAddresses <-- liftR ethAccounts ;;
         match evmAddresses with
         | [] => throw noAccountsError
         | _ :: _ => resumeWithAccounts env evmAddresses None
         end
     end)
    resumeFailure.

(* ------------------------------------------------------------------ *)
(** ** RainbowKitWallet: connector metadata and session resume *)

(** What [getAccount(wagmiConfig)] reports: connection status, the active
    address, all addresses, and the connector's name and icon (each present
    when it is a string). *)
Record WagmiAccount := mkWagmiAccount {
  wa_isConnected : bool;
  wa_address : option string;
  wa_addresses : option (list string);
  wa_connector : option ConnectorInfo }.

(** [RainbowKitWallet.extractConnectorInfo]. *)
Definition extractConnectorInfo (account : WagmiAccount) : ConnectorInfo :=
  match wa_connector account with
  | Some connector => mkConnectorInfo (ci_name connector) (ci_icon connector)
  | None => noConnectorInfo
  end.

(** The fallback of [resumeSession] to the connector metadata persisted on
    the first account, when the live connector info has no name. *)
Definition withPersistedConnectorInfo (accounts : list WalletAccount)
    (connectorInfo : ConnectorInfo) : ConnectorInfo :=
  if negb (truthyStr (ci_name connectorInfo)) && negb (Nat.eqb (length accounts) 0) then
    match accounts with
    | first :: _ =>
        let persistedName :=
          match acc_metadata first with Some md => md_connectorName md | None => None end in
        let persistedIcon :=
          match acc_metadata first with Some md => md_connectorIcon md | None => None end in
        mkConnectorInfo
          (if truthyStr persistedName then persistedName else ci_name connectorInfo)
          (if truthyStr persistedIcon then persistedIcon else ci_icon connectorInfo)
    | [] => connectorInfo
    end
  else connectorInfo.

(** [walletState.accounts.map((a) => a.metadata?.evmAddress).filter(Boolean)]. *)
Definition persistedEvmAddresses (accounts : list WalletAccount) : list string :=
  omap (fun a =>
          let addr := match acc_metadata a with Some md => md_evmAddress md | None => None end in
          if truthyStr addr then addr else None) accounts.

(** [account.addresses ? [...account.addresses] : [account.address]]. *)
Definition wagmiAddresses (account : WagmiAccount) (address : string) : list string :=
  match wa_addresses account with
  | Some addresses => addresses
  | None => [address]
  end.

(** [RainbowKitWallet.resumeSession]; [account] is what [getAccount] reports
    after [reconnect(wagmiConfig)], whose failures are only logged. *)
Definition rainbowKitResumeSession (env : Env) (account : WagmiAccount) : M unit :=
  match env_walletState env with
  | None => ret tt
  | Some walletState =>
      let finish evmAddresses connectorInfo :=
        let connectorInfo' := withPersistedConnectorInfo (ws_accounts walletState) connectorInfo in
        applyConnectorMetadata connectorInfo' ;;;
        resumeWithAccounts (withConnectorName env connectorInfo') evmAddresses
          (Some connectorInfo') in
      initializeEvmSdk env ;;;
      match wa_address account with
      | Some address =>
          if wa_isConnected account && truthyStr (Some address)
          then finish (wagmiAddresses account address) (extractConnectorInfo account)
          else match persistedEvmAddresses (ws_accounts walletState) with
               | [] => emit EvOnDisconnect
               | evmAddresses => finish evmAddresses noConnectorInfo
               end
      | None =>
          match persistedEvmAddresses (ws_accounts walletState) with
          | [] => emit EvOnDisconnect
          | evmAddresses => finish evmAddresses noConnectorInfo
          end
      end
  end.

(** A chain of [wagmiConfig.chains], reduced to its id. *)
Record Chain := mkChain { chain_id : N }.

(** [RainbowKitWallet.ensureChainRegistered]: push [algorandChain] onto the
    configured chains unless one of them has the Algorand chain id. *)
Definition ensureChainRegistered (ALGORAND_CHAIN_ID : N) (algorandChain : Chain)
    (chains : list Chain) : list Chain :=
  if existsb (fun c => N.eqb (chain_id c) ALGORAND_CHAIN_ID) chains then chains
  else chains ++ [algorandChain].

(* ------------------------------------------------------------------ *)
(** ** MetaMaskWallet.bytesToHex *)

(** A digit of [n.toString(16)]: [0-9], then [a-f]. *)
Definition hexDigit (d : N) : ascii :=
  if (d <? 10)%N then ascii_of_N (48 + d) else ascii_of_N (87 + d).

(** [n.toString(16)] for a non-negative integer, most significant digit
    first, no leading zeros; [fuel] bounds the number of digits. *)
Fixpoint toStringRadix16 (fuel : nat) (n : N) (acc : string) : string :=
  match fuel with
  | O => acc
  | S fuel' =>
      let acc' := String (hexDigit (N.modulo n 16)) acc in
      if (n <? 16)%N then acc' else toStringRadix16 fuel' (N.div n 16) acc'
  end.

Definition numberToString16 (n : N) : string :=
  toStringRadix16 (S (N.to_nat n)) n EmptyString.

Fixpoint repeatChar (k : nat) (c : ascii) : string :=
  match k with
  | O => EmptyString
  | S k' => String c (repeatChar k' c)
  end.

(** [s.padStart(targetLength, padString)] with a one-character pad. *)
Definition padStart (s : string) (targetLength : nat) (padChar : ascii) : string :=
  if (String.length s <? targetLength)%nat
  then String.append (repeatChar (targetLength - String.length s) padChar) s
  else s.

(** [bytesToHex(bytes)]:
    ['0x' + Array.from(bytes).map(b => b.toString(16).padStart(2, '0')).join('')]. *)
Definition bytesToHex (bytes : list Byte.byte) : string :=
  String.append "0x"
    (String.concat EmptyString
       (map (fun b => padStart (numberToString16 (Byte.to_N b)) 2 "0"%char) bytes)).

(** [error.code]: reading a property of [null]/[undefined] throws a
    [TypeError]. *)
Definition typeErrorCode : JsError :=
  JsErrorObj "TypeError" (Some "Cannot read properties of undefined (reading 'code')") None.

Definition errorCode (e : JsError) : Result (option Z) :=
  match e with
  | JsErrorObj _ _ c => Ok c
  | JsNullish => Throw typeErrorCode
  end.

Definition userRejectedSigning : JsError :=
  JsErrorObj "Error" (Some "User rejected the signing request") None.

(** [MetaMaskWallet.signWithMetaMask(message, evmAddress)]: [providerError]
    is the failure of [getProvider()], if any, and [personalSign] the
    provider's answer to [personal_sign] with the given parameters. *)
Definition signWithMetaMask (providerError : option JsError)
    (personalSign : string -> string -> Result string)
    (message : list Byte.byte) (evmAddress : string) : M string :=
  (match providerError with Some e => throw e | None => ret tt end) ;;;
  let hexMessage := bytesToHex message in
  emit (EvPersonalSign hexMessage evmAddress) ;;;
  match personalSign hexMessage evmAddress with
  | Ok signature => ret signature
  | Throw error =>
      match errorCode error with
      | Throw te => throw te
      | Ok code =>
          match code with
          | Some c => if Z.eqb c 4001 then throw userRejectedSigning else throw error
          | None => throw error
          end
      end
  end.

(* ------------------------------------------------------------------ *)
(** ** RainbowWallet.connect *)

(** [RainbowWallet.connect]; [initError] and [providerError] are the
    failures of [initializeProvider()] and [getProvider()], if any, and
    [requestAccounts] the answer to [eth_requestAccounts].  The [catch]
    block logs [error.message] and rethrows. *)
Definition rainbowConnect (env : Env) (initError providerError : option JsError)
    (requestAccounts : Result (list string)) : M (list WalletAccount) :=
  (match initError with Some e => throw e | None => ret tt end) ;;;
  initializeEvmSdk env ;;;
  (match providerError with Some e => throw e | None => ret tt end) ;;;
  tryCatch
    (evmAddresses <-- liftR requestAccounts ;;
     match evmAddresses with
     | [] => throw noAccountsError
     | evm0 :: _ =>
         walletAccounts <-- deriveAlgorandAccounts env evmAddresses None ;;
         let activeAccount := head walletAccounts in
         emit (EvAddWallet (mkWalletState walletAccounts activeAccount)) ;;;
         match activeAccount with
         | Some acc0 => emit (EvNotifyConnect evm0 (acc_address acc0)) ;;; ret walletAccounts
         | None => throw typeErrorAddress
         end
     end)
    (fun error =>
       match errorMessage error with
       | Throw te => throw te
       | Ok _ => throw error
       end).

(* ------------------------------------------------------------------ *)
(** ** RainbowKitWallet.getConnectedEvmAddresses *)

Definition noEvmWalletError : JsError :=
  JsErrorObj "Error" (Some "No EVM wallet connected. Please connect an EVM wallet first.") None.

(** [account.isConnected && account.address ? (account.addresses ? [...account.addresses]
    : [account.address]) : ..]. *)
Definition liveAddresses (account : WagmiAccount) : option (list string) :=
  match wa_address account with
  | Some address =>
      if wa_isConnected account && truthyStr (Some address)
      then Some (wagmiAddresses account address) else None
  | None => None
  end.

(** [RainbowKitWallet.getConnectedEvmAddresses]; [getEvmAccounts] is the
    answer of the [getEvmAccounts] callback when the option is set,
    [account] what [getAccount(wagmiConfig)] then reports, [hasConnector]
    whether [wagmiConfig.connectors] is non-empty, and [wagmiConnect] and
    [updatedAccount] the outcome of connecting with the first connector and
    what [getAccount] reports after it. *)
Definition getConnectedEvmAddresses (getEvmAccounts : option (Result (list string)))
    (account : WagmiAccount) (hasConnector : bool) (wagmiConnect : Result (list string))
    (updatedAccount : WagmiAccount) : M (list string * ConnectorInfo) :=
  fromCallback <--
    (match getEvmAccounts with
     | None => ret None
     | Some answer =>
         addresses <-- liftR answer ;;
         match addresses with
         | [] => ret None
         | _ :: _ =>
             let connectorInfo := extractConnectorInfo account in
             match liveAddresses account with
             | Some live => ret (Some (live, connectorInfo))
             | None => ret (Some (addresses, connectorInfo))
             end
         end
     end) ;;
  match fromCallback with
  | Some result => ret result
  | None =>
      match liveAddresses account with
      | Some live => ret (live, extractConnectorInfo account)
      | None =>
          autoConnected <--
            (if hasConnector then
               tryCatch
                 (emit EvWagmiConnect ;;;
                  accounts <-- liftR wagmiConnect ;;
                  ret (Some (accounts, extractConnectorInfo updatedAccount)))
                 (fun error =>
                    match errorMessage error with
                    | Throw te => throw te
                    | Ok _ => ret None
                    end)
             else ret None) ;;
          match autoConnected with
          | Some result => ret result
          | None => throw noEvmWalletError
          end
      end
  end.

(* ------------------------------------------------------------------ *)
(** ** Vocabulary of the properties *)

(** The spec's [eligibleForSignature] rule for the entry at index [i]:
    (a) no index filter, or [i] is in it; (b) the sender is one of the
    wallet's addresses; (c) the entry is not an already-signed blob. *)
Definition eligibleForSignature (indexFilter : option (list nat)) (addresses : list string)
    (i : nat) (txn : Transaction) (alreadySigned : bool) : Prop :=
  match indexFilter with None => True | Some f => i ∈ f end /\
  sender txn ∈ addresses /\ alreadySigned = false.

Global Instance eligibleForSignature_dec F addresses i txn alreadySigned :
  Decision (eligibleForSignature F addresses i txn alreadySigned).
Proof. unfold eligibleForSignature. destruct F; apply _. Defined.

(** Decoding every blob with its signed flag. *)
Fixpoint decodeEntries (bs : list EncodedTxn) : Result (list (Transaction * bool)) :=
  match bs with
  | [] => Ok []
  | b :: rest =>
      match decodeTxn b with
      | Throw e => Throw e
      | Ok entry =>
          match decodeEntries rest with
          | Ok es => Ok (entry :: es)
          | Throw e => Throw e
          end
      end
  end.

(** The normalised group: each flattened entry with its "already signed"
    flag (never set for structured input). *)
Definition normalizeEntries (txnGroup : TxnGroupArg) : Result (list (Transaction * bool)) :=
  match txnGroup with
  | GroupTxns g => Ok (map (fun t => (t, false)) (flattenTxnGroup g))
  | GroupEncoded g => decodeEntries (flattenTxnGroup g)
  end.

(** The eligible entries, in order, of a group whose first index is [k]. *)
Definition eligibleFrom (F : option (list nat)) (addresses : list string) (k : nat)
    (entries : list (Transaction * bool)) : list Transaction :=
  map (fun p => fst (snd p))
    (List.filter
       (fun p => bool_decide (eligibleForSignature F addresses (fst p) (fst (snd p)) (snd (snd p))))
       (zip (seq k (length entries)) entries)).

Definition eligibleEntries (F : option (list nat)) (addresses : list string)
    (entries : list (Transaction * bool)) : list Transaction :=
  eligibleFrom F addresses 0 entries.

(** The SDK handle exists or can be created. *)
Definition sdkAvailable (env : Env) (st : WState) : Prop :=
  st_sdkReady st = true \/ env_sdkInit env = None.

(** The state after a successful [initializeEvmSdk]. *)
Definition readyState (st : WState) : WState :=
  mkWState (st_evmAddressMap st) true (st_connecting st) (st_trace st).

(** The source address of [algorandAddress] as the spec describes its
    resolution: the map entry, else the entry after rebuilding the map from
    the persisted accounts. *)
Definition resolveSourceAddress (env : Env) (m : gmap string string)
    (algorandAddress : string) : option string :=
  match m !! algorandAddress with
  | Some s => Some s
  | None =>
      match env_walletState env with
      | Some ws => rebuildEvmAddressMap (ws_accounts ws) m !! algorandAddress
      | None => None
      end
  end.

(** [account.metadata?.evmAddress]. *)
Definition evmAddressOf (a : WalletAccount) : option string :=
  match acc_metadata a with Some md => md_evmAddress md | None => None end.

(** The trace of [s'] extends that of [s] with events satisfying [P]. *)
Definition extendsWith (P : Event -> Prop) (s s' : WState) : Prop :=
  exists evs, st_trace s' = (st_trace s ++ evs)%list /\ Forall P evs.

(** A computation that only issues events satisfying [P]. *)
Definition TraceOnly {A} (P : Event -> Prop) (m : M A) : Prop :=
  forall s, extendsWith P s (snd (m s)).

Definition isSignCall (ev : Event) : Prop :=
  match ev with EvSignTxn _ _ => True | _ => False end.

(** The EVM address the persisted accounts give [algorandAddress]: that of
    the last account with this address and a non-empty [evmAddress]. *)
Fixpoint persistedEvmAddressOf (accounts : list WalletAccount) (algorandAddress : string)
    : option string :=
  match accounts with
  | [] => None
  | account :: rest =>
      match persistedEvmAddressOf rest algorandAddress with
      | Some e => Some e
      | None =>
          if String.eqb (acc_address account) algorandAddress && truthyStr (evmAddressOf account)
          then evmAddressOf account else None
      end
  end.

(** A reader for the output of [bytesToHex] (it is not part of the
    sources): a [0x] prefix, then two lowercase hex digits per byte. *)
Definition hexValue (c : ascii) : option N :=
  let n := N_of_ascii c in
  if (48 <=? n)%N && (n <=? 57)%N then Some (n - 48)%N
  else if (97 <=? n)%N && (n <=? 102)%N then Some (n - 87)%N
  else None.

Definition hexPair (hi lo : ascii) : option Byte.byte :=
  match hexValue hi, hexValue lo with
  | Some h, Some l => Byte.of_N (16 * h + l)
  | _, _ => None
  end.

Fixpoint hexPairsToBytes (s : string) : option (list Byte.byte) :=
  match s with
  | EmptyString => Some []
  | String hi (String lo rest) =>
      match hexPair hi lo, hexPairsToBytes rest with
      | Some b, Some bs => Some (b :: bs)
      | _, _ => None
      end
  | String _ EmptyString => None
  end.

Definition hexToBytes (s : string) : option (list Byte.byte) :=
  match s with
  | String c0 (String c1 rest) =>
      if Ascii.eqb c0 "0"%char && Ascii.eqb c1 "x"%char then hexPairsToBytes rest else None
  | _ => None
  end.

(** The connector name and icon persisted on the first account, each when
    it is a non-empty string. *)
Definition persistedConnectorName (accounts : list WalletAccount) : option string :=
  match accounts with
  | first :: _ =>
      match acc_metadata first with
      | Some md => if truthyStr (md_connectorName md) then md_connectorName md else None
      | None => None
      end
  | [] => None
  end.

Definition persistedConnectorIcon (accounts : list WalletAccount) : option string :=
  match accounts with
  | first :: _ =>
      match acc_metadata first with
      | Some md => if truthyStr (md_connectorIcon md) then md_connectorIcon md else None
      | None => None
      end
  | [] => None
  end.

(** The group has a first transaction where [isTransactionArray] (of
    [src/utils], not among the sources) looks for one: [txnGroup[0]] for a
    flat group, [txnGroup[0][0]] for a nested one.  For such a group the
    path [signTransactions] takes is the one of the encoding the caller
    used, which is how [TxnGroupArg] records it. *)
Definition firstEntryPresent {A} (g : TxnNest A) : bool :=
  match g with
  | Flat (_ :: _) => true
  | Nested ((_ :: _) :: _) => true
  | _ => false
  end.

Definition groupFirstEntryPresent (txnGroup : TxnGroupArg) : bool :=
  match txnGroup with
  | GroupTxns g => firstEntryPresent g
  | GroupEncoded g => firstEntryPresent g
  end.

(** The events of [applyConnectorMetadata(connectorInfo)]: one
    [updateMetadata] call with the non-empty name and icon, when there is
    one. *)
Definition connectorMetadataEvents (connectorInfo : ConnectorInfo) : list Event :=
  let name := if truthyStr (ci_name connectorInfo) then ci_name connectorInfo else None in
  let icon := if truthyStr (ci_icon connectorInfo) then ci_icon connectorInfo else None in
  if truthyStr name || truthyStr icon then [EvUpdateMetadata name icon] else [].

(** The wallet name once the connector metadata is applied: the connector's
    name when it is a non-empty string, the wallet's own name otherwise. *)
Definition nameAfterConnect (env : Env) (connectorInfo : ConnectorInfo) : string :=
  if truthyStr (ci_name connectorInfo) then default "" (ci_name connectorInfo)
  else env_walletName env.

(* ------------------------------------------------------------------ *)
(** ** Concrete instances *)

Module Demo.

Definition getAddress (evm : string) : Result string := Ok ("ALGO_" ++ evm).
Definition signTxn (evm : string) (txns : list Transaction) : Result (list SignedBlob) :=
  Ok (map (fun t => mkSigned t evm) txns).
Definition provider : Provider := mkProvider (inl "0x1040") None None.

Definition env : Env :=
  mkEnv ["ALGO_0xA"] None "EVM Wallet" None getAddress signTxn
    None None None None provider "0x1040".

Definition state0 : WState :=
  mkWState (<["ALGO_0xA" := "0xA"]> ∅) true false [].

Definition txA0 := mkTxn 0 "ALGO_0xA".
Definition txB1 := mkTxn 1 "ALGO_0xB".
Definition txA2 := mkTxn 2 "ALGO_0xA".

(** A provider on another chain whose switch request fails with 4902. *)
Definition providerWrongChain : Provider :=
  mkProvider (inl "0x1") (Some (mkProviderError (Some 4902%Z) (Some "Unrecognized chain ID"))) None.

Definition envWrongChain : Env :=
  mkEnv ["ALGO_0xA"] None "EVM Wallet" None getAddress signTxn
    None None None None providerWrongChain "0x1040".

(** A persisted session for "0xA", stored under an older connector name. *)
Definition persisted : WalletState :=
  let acc := mkAccount "EVM Wallet 0xA" "ALGO_0xA"
               (Some (mkMetadata (Some "0xA") (Some "Old Wallet") None)) in
  mkWalletState [acc] (Some acc).

Definition envPersisted : Env :=
  mkEnv ["ALGO_0xA"] (Some persisted) "EVM Wallet" None getAddress signTxn
    None None None None provider "0x1040".

(** Hooks: [onBeforeSign] rejects with [undefined]; [onAfterSign] is set. *)
Definition envRejectingHook : Env :=
  mkEnv ["ALGO_0xA"] None "EVM Wallet" None getAddress signTxn
    (Some (fun _ _ => Some JsNullish)) None (Some (fun _ _ => None)) None provider "0x1040".

(** An instance whose map is still empty (e.g. after a page reload). *)
Definition stateEmpty : WState := mkWState ∅ true false [].

End Demo.

Module Demo2.

(** Both sign hooks set, neither of them failing. *)
Definition envHooks : Env :=
  mkEnv ["ALGO_0xA"] None "EVM Wallet" None Demo.getAddress Demo.signTxn
    (Some (fun _ _ => None)) None (Some (fun _ _ => None)) None Demo.provider "0x1040".

(** An [onBeforeSign] hook with which the user cancels. *)
Definition cancelled : JsError := JsErrorObj "Error" (Some "User cancelled") None.

Definition envCancel : Env :=
  mkEnv ["ALGO_0xA"] None "EVM Wallet" None Demo.getAddress Demo.signTxn
    (Some (fun _ _ => Some cancelled)) None (Some (fun _ _ => None)) None Demo.provider "0x1040".

(** A provider on another chain that rejects the switch request (4001). *)
Definition switchRejected : ProviderError :=
  mkProviderError (Some 4001%Z) (Some "User rejected the request.").

Definition providerRejects : Provider := mkProvider (inl "0x1") (Some switchRejected) None.

Definition envRejectSwitch : Env :=
  mkEnv ["ALGO_0xA"] None "EVM Wallet" None Demo.getAddress Demo.signTxn
    None None (Some (fun _ _ => None)) None providerRejects "0x1040".

(** An SDK that cannot derive an address for "bad". *)
Definition invalidAddress : JsError := JsErrorObj "Error" (Some "invalid EVM address") None.

Definition getAddressPartial (evm : string) : Result string :=
  if String.eqb evm "bad" then Throw invalidAddress else Ok ("ALGO_" ++ evm).

Definition envPartial : Env :=
  mkEnv ["ALGO_0xA"] None "EVM Wallet" None getAddressPartial Demo.signTxn
    None None None None Demo.provider "0x1040".

End Demo2.

Example scenarioB :
  fst (signTransactions Demo.env (GroupTxns (Flat [Demo.txA0; Demo.txB1; Demo.txA2])) None Demo.state0)
  = Ok [Some (mkSigned Demo.txA0 "0xA"); None; Some (mkSigned Demo.txA2 "0xA")].
Proof. vm_compute. reflexivity. Qed.

(* ------------------------------------------------------------------ *)
(** ** Classification of a transaction group *)

Open Scope list_scope.

Lemma includesStr_spec (xs : list string) (x : string) :
  includesStr xs x = true <-> x ∈ xs.
Proof.
  unfold includesStr. rewrite existsb_exists, list_elem_of_In. split.
  - intros (y & Hy & Heq). apply String.eqb_eq in Heq. subst. done.
  - intros H. exists x. split; [done | apply String.eqb_refl].
Qed.

Lemma includesNat_spec (xs : list nat) (x : nat) :
  includesNat xs x = true <-> x ∈ xs.
Proof.
  unfold includesNat. rewrite existsb_exists, list_elem_of_In. split.
  - intros (y & Hy & Heq). apply Nat.eqb_eq in Heq. subst. done.
  - intros H. exists x. split; [done | apply Nat.eqb_refl].
Qed.

Lemma isIndexMatch_spec (F : option (list nat)) (i : nat) :
  isIndexMatch F i = true <-> match F with None => True | Some f => i ∈ f end.
Proof. destruct F; simpl; [apply includesNat_spec | done]. Qed.

(** The boolean test of the code is the spec's eligibility rule. *)
Lemma eligible_bool F addresses i t alreadySigned :
  isIndexMatch F i && (negb alreadySigned && includesStr addresses (sender t)) =
  bool_decide (eligibleForSignature F addresses i t alreadySigned).
Proof.
  case_bool_decide as H; unfold eligibleForSignature in H.
  - destruct H as (Hf & Hs & ->).
    apply isIndexMatch_spec in Hf. apply includesStr_spec in Hs.
    rewrite Hf, Hs. done.
  - destruct (isIndexMatch F i) eqn:E1, alreadySigned,
      (includesStr addresses (sender t)) eqn:E2; simpl; try done.
    exfalso. apply H. split; [by apply isIndexMatch_spec |].
    split; [by apply includesStr_spec | done].
Qed.

Lemma eligibleFrom_nil F addresses k : eligibleFrom F addresses k [] = [].
Proof. reflexivity. Qed.

Lemma eligibleFrom_cons F addresses k t alreadySigned es :
  eligibleFrom F addresses k ((t, alreadySigned) :: es) =
  (if bool_decide (eligibleForSignature F addresses k t alreadySigned) then [t] else [])
  ++ eligibleFrom F addresses (S k) es.
Proof.
  unfold eligibleFrom. cbn [length seq zip zip_with List.filter fst snd].
  destruct (bool_decide _); reflexivity.
Qed.

Lemma processTxnsLoop_eligible addresses F k txns acc :
  processTxnsLoop addresses F k txns acc =
  acc ++ eligibleFrom F addresses k (map (fun t => (t, false)) txns).
Proof.
  revert k acc; induction txns as [|t txns IH]; intros k acc; cbn [processTxnsLoop map].
  - by rewrite eligibleFrom_nil, app_nil_r.
  - rewrite IH, eligibleFrom_cons, <- eligible_bool. cbn [negb andb].
    destruct (isIndexMatch F k && includesStr addresses (sender t));
      cbn [app]; by rewrite <- ?app_assoc.
Qed.

Lemma processEncodedTxnsLoop_eligible addresses F k bs acc entries :
  decodeEntries bs = Ok entries ->
  processEncodedTxnsLoop addresses F k bs acc =
  Ok (acc ++ eligibleFrom F addresses k entries).
Proof.
  revert k acc entries; induction bs as [|b bs IH]; intros k acc entries Hdec;
    cbn [decodeEntries] in Hdec.
  - injection Hdec as <-. by rewrite eligibleFrom_nil, app_nil_r.
  - cbn [processEncodedTxnsLoop].
    destruct (decodeTxn b) as [[t sgn]|e]; [|discriminate].
    destruct (decodeEntries bs) as [es|e] eqn:Hbs; [|discriminate].
    injection Hdec as <-.
    rewrite (IH _ _ es eq_refl), eligibleFrom_cons, <- eligible_bool.
    destruct (isIndexMatch F k && (negb sgn && includesStr addresses (sender t)));
      cbn [app]; by rewrite <- ?app_assoc.
Qed.

Lemma decodeAll_entries bs entries :
  decodeEntries bs = Ok entries -> decodeAll bs = Ok (map fst entries).
Proof.
  revert entries; induction bs as [|b bs IH]; intros entries Hdec; cbn in *.
  - by injection Hdec as <-.
  - destruct (decodeTxn b) as [[t sgn]|e]; [|discriminate].
    destruct (decodeEntries bs) as [es|e]; [|discriminate].
    injection Hdec as <-. by rewrite (IH es eq_refl).
Qed.

Lemma flatTransactions_entries txnGroup entries :
  normalizeEntries txnGroup = Ok entries ->
  flatTransactions txnGroup = Ok (map fst entries).
Proof.
  destruct txnGroup as [g|g]; cbn [normalizeEntries flatTransactions]; intros H.
  - injection H as <-. by rewrite map_map, map_id.
  - by apply decodeAll_entries.
Qed.

Lemma length_entries_flat txnGroup entries :
  normalizeEntries txnGroup = Ok entries ->
  exists flat, flatTransactions txnGroup = Ok flat /\ length flat = length entries.
Proof.
  intros H. exists (map fst entries). split; [by apply flatTransactions_entries|].
  apply length_map.
Qed.

Lemma selectTxnsToSign_entries (env : Env) (txnGroup : TxnGroupArg)
    (F : option (list nat)) (entries : list (Transaction * bool)) :
  normalizeEntries txnGroup = Ok entries ->
  flatTransactions txnGroup = Ok (map fst entries) /\
  selectTxnsToSign env txnGroup (map fst entries) F =
    Ok (eligibleEntries F (env_addresses env) entries).
Proof.
  intros H. split; [by apply flatTransactions_entries|].
  destruct txnGroup as [g|g]; cbn [normalizeEntries selectTxnsToSign] in *.
  - injection H as <-. rewrite map_map, map_id. unfold processTxns.
    by rewrite processTxnsLoop_eligible.
  - unfold processEncodedTxns. by rewrite (processEncodedTxnsLoop_eligible _ _ _ _ _ _ H).
Qed.

(** C3: the entries [signTransactions] selects for signing ([txnsToSign],
    computed by [processTxns] or [processEncodedTxns]) are exactly the
    entries of the normalised group, in order, whose index passes the
    filter (or no filter is given), whose sender is one of the wallet's
    addresses and which, for binary-encoded input, are not already signed. *)
Theorem selectTxnsToSign_eligible (env : Env) (txnGroup : TxnGroupArg)
    (F : option (list nat)) (entries : list (Transaction * bool)) :
  normalizeEntries txnGroup = Ok entries ->
  flatTransactions txnGroup = Ok (map fst entries) /\
  selectTxnsToSign env txnGroup (map fst entries) F =
    Ok (eligibleEntries F (env_addresses env) entries).
Proof.
  intros H. split; [by apply flatTransactions_entries|].
  destruct txnGroup as [g|g]; cbn [normalizeEntries selectTxnsToSign] in *.
  - injection H as <-. rewrite map_map, map_id. unfold processTxns.
    by rewrite processTxnsLoop_eligible.
  - unfold processEncodedTxns. by rewrite (processEncodedTxnsLoop_eligible _ _ _ _ _ _ H).
Qed.

Lemma selectTxnsToSign_eligible_witness :
  normalizeEntries
    (GroupEncoded (Flat [EncUnsigned Demo.txA0; EncUnsigned Demo.txB1; EncSigned Demo.txA2]))
  = Ok [(Demo.txA0, false); (Demo.txB1, false); (Demo.txA2, true)] /\
  selectTxnsToSign Demo.env
    (GroupEncoded (Flat [EncUnsigned Demo.txA0; EncUnsigned Demo.txB1; EncSigned Demo.txA2]))
    (map fst [(Demo.txA0, false); (Demo.txB1, false); (Demo.txA2, true)]) None
  = Ok [Demo.txA0].
Proof.
  split; [reflexivity|].
  rewrite (proj2 (selectTxnsToSign_eligible Demo.env
    (GroupEncoded (Flat [EncUnsigned Demo.txA0; EncUnsigned Demo.txB1; EncSigned Demo.txA2]))
    None [(Demo.txA0, false); (Demo.txB1, false); (Demo.txA2, true)] eq_refl)).
  vm_compute. reflexivity.
Defined.

(* ------------------------------------------------------------------ *)
(** ** Groups with nothing to sign *)

Lemma initializeEvmSdk_ready env st :
  sdkAvailable env st -> initializeEvmSdk env st = (Ok tt, readyState st).
Proof.
  unfold sdkAvailable, initializeEvmSdk, readyState, setSdkReady.
  destruct st as [m rdy c tr]; cbn. intros [->| ->]; [done|].
  destruct rdy; done.
Qed.

Lemma eligibleFrom_none F addresses k entries :
  (forall i t sgn, entries !! i = Some (t, sgn) ->
     ~ eligibleForSignature F addresses (k + i) t sgn) ->
  eligibleFrom F addresses k entries = [].
Proof.
  revert k; induction entries as [|[t sgn] es IH]; intros k H; [done|].
  rewrite eligibleFrom_cons, bool_decide_eq_false_2.
  - cbn [app]. apply IH. intros i t' s' Hi.
    replace (S k + i) with (k + S i) by lia. by apply H.
  - replace k with (k + 0) by lia. by apply (H 0).
Qed.

Lemma map_const_repeat {A B} (c : B) (l : list A) :
  map (fun _ => c) l = repeat c (length l).
Proof. induction l; cbn; congruence. Qed.

Lemma signTransactions_nothing_to_sign env txnGroup F st flat :
  sdkAvailable env st ->
  flatTransactions txnGroup = Ok flat ->
  selectTxnsToSign env txnGroup flat F = Ok [] ->
  signTransactions env txnGroup F st = (Ok (map (fun _ => None) flat), readyState st).
Proof.
  intros Hs Hf Hsel. unfold signTransactions, signTransactionsTry, tryCatch, bind.
  rewrite (initializeEvmSdk_ready _ _ Hs). unfold liftR. rewrite Hf, Hsel.
  reflexivity.
Qed.

(** Shared core of the "no eligible entry" properties. *)
Lemma signTransactions_all_ineligible env txnGroup F st entries :
  sdkAvailable env st ->
  normalizeEntries txnGroup = Ok entries ->
  (forall i t sgn, entries !! i = Some (t, sgn) ->
     ~ eligibleForSignature F (env_addresses env) i t sgn) ->
  signTransactions env txnGroup F st =
    (Ok (repeat None (length entries)), readyState st).
Proof.
  intros Hs Hn Hnone.
  destruct (selectTxnsToSign_entries env txnGroup F entries Hn) as [Hf Hsel].
  rewrite (signTransactions_nothing_to_sign env txnGroup F st (map fst entries) Hs Hf).
  - by rewrite map_const_repeat, length_map.
  - rewrite Hsel. unfold eligibleEntries. f_equal. by apply eligibleFrom_none.
Qed.

(** C2: when no entry of the normalised group is eligible,
    [signTransactions] returns an array of [null] as long as the normalised
    group and issues no external request at all (in particular no call of
    the SDK's batched [signTxn]): the trace is unchanged.  (The SDK handle
    must exist or be creatable, else the call fails at its first line.) *)
Theorem signTransactions_no_eligible (env : Env) (txnGroup : TxnGroupArg)
    (F : option (list nat)) (st : WState) (entries : list (Transaction * bool)) :
  sdkAvailable env st ->
  normalizeEntries txnGroup = Ok entries ->
  (forall i t sgn, entries !! i = Some (t, sgn) ->
     ~ eligibleForSignature F (env_addresses env) i t sgn) ->
  let '(r, st') := signTransactions env txnGroup F st in
  r = Ok (repeat None (length entries)) /\ st_trace st' = st_trace st.
Proof.
  intros Hs Hn Hnone.
  rewrite (signTransactions_all_ineligible env txnGroup F st entries Hs Hn Hnone).
  done.
Qed.

Lemma signTransactions_no_eligible_witness :
  sdkAvailable Demo.env Demo.state0 /\
  normalizeEntries (GroupTxns (Flat [Demo.txB1; Demo.txB1])) =
    Ok [(Demo.txB1, false); (Demo.txB1, false)] /\
  (let '(r, st') := signTransactions Demo.env (GroupTxns (Flat [Demo.txB1; Demo.txB1])) None Demo.state0 in
   r = Ok (repeat None 2) /\ st_trace st' = st_trace Demo.state0).
Proof.
  split; [left; reflexivity|]. split; [reflexivity|].
  apply (signTransactions_no_eligible Demo.env (GroupTxns (Flat [Demo.txB1; Demo.txB1])) None
           Demo.state0 [(Demo.txB1, false); (Demo.txB1, false)]).
  - left; reflexivity.
  - reflexivity.
  - intros i t sgn Hi (_ & Hin & _).
    destruct i as [|[|i]]; cbn in Hi; try discriminate;
      injection Hi as <- <-; cbn in Hin; vm_compute in Hin;
      apply list_elem_of_In in Hin; cbn in Hin; intuition discriminate.
Defined.

(** C10: an empty index filter ([Some []], an empty array) selects no
    index: every entry is ineligible and [signTransactions] returns an
    all-[null] array of the normalised length without any external request;
    omitting the filter ([None]) instead lets every entry owned by the wallet
    be eligible, so the two are not equivalent. *)
Theorem signTransactions_empty_filter (env : Env) (txnGroup : TxnGroupArg)
    (st : WState) (entries : list (Transaction * bool)) :
  sdkAvailable env st ->
  normalizeEntries txnGroup = Ok entries ->
  (forall i t sgn, ~ eligibleForSignature (Some []) (env_addresses env) i t sgn) /\
  (forall i t, sender t ∈ env_addresses env ->
     eligibleForSignature None (env_addresses env) i t false) /\
  (let '(r, st') := signTransactions env txnGroup (Some []) st in
   r = Ok (repeat None (length entries)) /\ st_trace st' = st_trace st).
Proof.
  intros Hs Hn.
  assert (Hnone : forall i t sgn, ~ eligibleForSignature (Some []) (env_addresses env) i t sgn).
  { intros i t sgn (Hi & _). by apply not_elem_of_nil in Hi. }
  split; [exact Hnone|]. split.
  - intros i t Ht. repeat split; done.
  - rewrite (signTransactions_all_ineligible env txnGroup (Some []) st entries Hs Hn
               (fun i t sgn _ => Hnone i t sgn)).
    done.
Qed.

Lemma signTransactions_empty_filter_witness :
  sdkAvailable Demo.env Demo.state0 /\
  normalizeEntries (GroupTxns (Flat [Demo.txA0; Demo.txB1])) =
    Ok [(Demo.txA0, false); (Demo.txB1, false)] /\
  (let '(r, st') := signTransactions Demo.env (GroupTxns (Flat [Demo.txA0; Demo.txB1]))
                      (Some []) Demo.state0 in
   r = Ok (repeat None 2) /\ st_trace st' = st_trace Demo.state0).
Proof.
  split; [left; reflexivity|]. split; [reflexivity|].
  apply (signTransactions_empty_filter Demo.env (GroupTxns (Flat [Demo.txA0; Demo.txB1]))
           Demo.state0 [(Demo.txA0, false); (Demo.txB1, false)]).
  - left; reflexivity.
  - reflexivity.
Defined.

(* ------------------------------------------------------------------ *)
(** ** The result array *)

(** C1 (failing input): in the binary-encoded path the result array is
    rebuilt with the sender and index tests only, without the "not already
    signed" test of [processEncodedTxns]; a group holding an unsigned and an
    already-signed transaction of the wallet's own account gets a signed blob
    at the already-signed (ineligible) index 1 instead of [null]. *)
Theorem signTransactions_blob_at_signed_entry :
  normalizeEntries (GroupEncoded (Flat [EncUnsigned Demo.txA0; EncSigned Demo.txA2])) =
    Ok [(Demo.txA0, false); (Demo.txA2, true)] /\
  eligibleForSignature None (env_addresses Demo.env) 0 Demo.txA0 false /\
  ~ eligibleForSignature None (env_addresses Demo.env) 1 Demo.txA2 true /\
  fst (signTransactions Demo.env
         (GroupEncoded (Flat [EncUnsigned Demo.txA0; EncSigned Demo.txA2])) None Demo.state0)
  = Ok [Some (mkSigned Demo.txA0 "0xA"); Some (mkSigned Demo.txA2 "0xA")].
Proof.
  split; [reflexivity|]. split.
  - repeat split. cbn. apply list_elem_of_In. cbn. auto.
  - split.
    + intros (_ & _ & H). discriminate.
    + vm_compute. reflexivity.
Qed.

(* ------------------------------------------------------------------ *)
(** ** Chain guard *)

(** C5: once the provider reports its current chain id [cur]:
    - if [cur] is the Algorand chain id (hex ids compared ignoring case) the
      guard returns with no switch or add request;
    - otherwise it issues exactly one switch request; if that fails with a
      code of the "chain unknown" set (4902, -32600, -32603) it issues one
      add request (whose own outcome is the result), any other switch
      failure is rethrown unchanged, and a successful switch ends the guard.
    The address map is never touched. *)
Theorem ensureAlgorandChain_requests (env : Env) (st : WState) (cur : string) :
  prov_chainId (env_provider env) = inl cur ->
  let target := env_algorandChainIdHex env in
  let '(r, st') := ensureAlgorandChain env st in
  st_evmAddressMap st' = st_evmAddressMap st /\
  if String.eqb (toLowerCase cur) (toLowerCase target) then
    r = Ok tt /\ st_trace st' = st_trace st ++ [EvChainIdRead]
  else
    match prov_switch (env_provider env) with
    | None =>
        r = Ok tt /\ st_trace st' = st_trace st ++ [EvChainIdRead; EvSwitchChain target]
    | Some switchError =>
        if includesZ chainUnknownCodes (pe_code switchError) then
          st_trace st' = st_trace st ++ [EvChainIdRead; EvSwitchChain target; EvAddChain] /\
          r = match prov_add (env_provider env) with
              | None => Ok tt
              | Some addError => Throw (providerErrorToJs addError)
              end
        else
          st_trace st' = st_trace st ++ [EvChainIdRead; EvSwitchChain target] /\
          r = Throw (providerErrorToJs switchError)
    end.
Proof.
  intros Hcur. unfold ensureAlgorandChain, bind, emit, liftR, providerResult.
  cbn [st_trace st_evmAddressMap]. rewrite Hcur.
  destruct (String.eqb _ _); [done|].
  destruct (prov_switch (env_provider env)) as [se|]; cbn.
  - destruct (includesZ chainUnknownCodes (pe_code se)); cbn.
    + destruct (prov_add (env_provider env)); cbn;
        (split; [done|]); (split; [by rewrite <- !app_assoc | done]).
    + split; [done|]. split; [by rewrite <- !app_assoc | done].
  - split; [done|]. split; [done | by rewrite <- !app_assoc].
Qed.

Lemma ensureAlgorandChain_requests_witness :
  prov_chainId (env_provider Demo.envWrongChain) = inl "0x1" /\
  (let '(r, st') := ensureAlgorandChain Demo.envWrongChain Demo.state0 in
   st_evmAddressMap st' = st_evmAddressMap Demo.state0 /\
   st_trace st' = [EvChainIdRead; EvSwitchChain "0x1040"; EvAddChain] /\ r = Ok tt).
Proof.
  split; [reflexivity|].
  exact (ensureAlgorandChain_requests Demo.envWrongChain Demo.state0 "0x1" eq_refl).
Defined.

(* ------------------------------------------------------------------ *)
(** ** Address derivation *)

Lemma initializeEvmSdk_ok env st st0 :
  initializeEvmSdk env st = (Ok tt, st0) ->
  st_sdkReady st0 = true /\ st_evmAddressMap st0 = st_evmAddressMap st /\
  st_trace st0 = st_trace st /\ st_connecting st0 = st_connecting st.
Proof.
  unfold initializeEvmSdk, setSdkReady. destruct (st_sdkReady st) eqn:E.
  - intros H. injection H as <-. done.
  - destruct (env_sdkInit env); intros H; [discriminate|]. injection H as <-. done.
Qed.

Lemma initializeEvmSdk_when_ready env st :
  st_sdkReady st = true -> initializeEvmSdk env st = (Ok tt, st).
Proof. unfold initializeEvmSdk. intros ->. reflexivity. Qed.

(** C6: after [deriveAlgorandAccounts([s])] succeeds, the reverse map sends
    the derived account's Algorand address back to [s]; deriving [s] again
    (with any connector info) succeeds, yields the same Algorand address and
    leaves the map as it was (the same entry is overwritten with the same
    value). *)
Theorem deriveAlgorandAccounts_reverse_lookup (env : Env) (s : string)
    (ci ci' : option ConnectorInfo) (st st1 : WState) (accs : list WalletAccount) :
  deriveAlgorandAccounts env [s] ci st = (Ok accs, st1) ->
  exists acc, accs = [acc] /\
    st_evmAddressMap st1 !! acc_address acc = Some s /\
    exists accs2 st2,
      deriveAlgorandAccounts env [s] ci' st1 = (Ok accs2, st2) /\
      map acc_address accs2 = [acc_address acc] /\
      st_evmAddressMap st2 = st_evmAddressMap st1.
Proof.
  unfold deriveAlgorandAccounts, bind.
  destruct (initializeEvmSdk env st) as [r0 st0] eqn:Hi.
  destruct r0 as [[]|e]; [|discriminate].
  destruct (initializeEvmSdk_ok _ _ _ Hi) as (Hready & _).
  cbn. destruct (env_getAddress env s) as [a|e] eqn:Hg; cbn; [|discriminate].
  intros H. injection H as <- <-. eexists. split; [reflexivity|]. cbn.
  split; [apply lookup_insert_eq|].
  rewrite initializeEvmSdk_when_ready by (cbn; exact Hready). cbn.
  do 2 eexists. split; [reflexivity|].
  split; [reflexivity|]. cbn. apply insert_insert_eq.
Qed.

Lemma deriveAlgorandAccounts_reverse_lookup_witness :
  deriveAlgorandAccounts Demo.env ["0xA"] None Demo.stateEmpty =
    (Ok [mkAccount "EVM Wallet 0xA" "ALGO_0xA" (Some (mkMetadata (Some "0xA") None None))],
     mkWState (<["ALGO_0xA" := "0xA"]> ∅) true false [EvGetAddress "0xA"]) /\
  exists acc, [mkAccount "EVM Wallet 0xA" "ALGO_0xA" (Some (mkMetadata (Some "0xA") None None))] = [acc] /\
    st_evmAddressMap (mkWState (<["ALGO_0xA" := "0xA"]> ∅) true false [EvGetAddress "0xA"])
      !! acc_address acc = Some "0xA" /\
    exists accs2 st2,
      deriveAlgorandAccounts Demo.env ["0xA"] (Some (mkConnectorInfo (Some "MetaMask") None))
        (mkWState (<["ALGO_0xA" := "0xA"]> ∅) true false [EvGetAddress "0xA"]) = (Ok accs2, st2) /\
      map acc_address accs2 = [acc_address acc] /\
      st_evmAddressMap st2 =
        st_evmAddressMap (mkWState (<["ALGO_0xA" := "0xA"]> ∅) true false [EvGetAddress "0xA"]).
Proof.
  split; [reflexivity|].
  apply (deriveAlgorandAccounts_reverse_lookup Demo.env "0xA" None
           (Some (mkConnectorInfo (Some "MetaMask") None)) Demo.stateEmpty).
  reflexivity.
Defined.

(* ------------------------------------------------------------------ *)
(** ** Connect *)

Lemma deriveLoop_evmAddresses env ci evmAddresses acc s accs s' :
  deriveLoop env ci evmAddresses acc s = (Ok accs, s') ->
  map evmAddressOf accs = map evmAddressOf acc ++ map Some evmAddresses.
Proof.
  revert acc s; induction evmAddresses as [|e rest IH]; intros acc s H; cbn in H.
  - injection H as <- _. by rewrite app_nil_r.
  - destruct (env_getAddress env e) as [a|err]; cbn in H; [|discriminate].
    rewrite (IH _ _ H), map_app, <- app_assoc. reflexivity.
Qed.

Lemma bind_ok_inv {A B} (m : M A) (k : A -> M B) s r s' :
  bind m k s = (Ok r, s') -> exists a s1, m s = (Ok a, s1) /\ k a s1 = (Ok r, s').
Proof. unfold bind. destruct (m s) as [[a|e] s1]; intros H; [eauto|discriminate]. Qed.

Lemma deriveAlgorandAccounts_evmAddresses env evmAddresses ci s accs s' :
  deriveAlgorandAccounts env evmAddresses ci s = (Ok accs, s') ->
  map evmAddressOf accs = map Some evmAddresses.
Proof.
  unfold deriveAlgorandAccounts, bind.
  destruct (initializeEvmSdk env s) as [[[]|e] s0]; [|discriminate].
  intros H. by rewrite (deriveLoop_evmAddresses _ _ _ _ _ _ _ H).
Qed.

Lemma rainbowKitConnect_accounts env evmAddresses ci st accs st' :
  st_connecting st = false ->
  rainbowKitConnect env evmAddresses ci st = (Ok accs, st') ->
  map evmAddressOf accs = map Some evmAddresses.
Proof.
  intros Hc. unfold rainbowKitConnect, getConnecting, tryFinally, bind at 1.
  rewrite Hc.
  cbn -[initializeEvmSdk applyConnectorMetadata deriveAlgorandAccounts withConnectorName].
  unfold bind.
  cbn -[initializeEvmSdk applyConnectorMetadata deriveAlgorandAccounts withConnectorName].
  match goal with |- context [initializeEvmSdk env ?s] =>
    destruct (initializeEvmSdk env s) as [[[]|e] s0] end;
    cbn -[applyConnectorMetadata deriveAlgorandAccounts withConnectorName]; [|discriminate].
  destruct (applyConnectorMetadata ci s0) as [[[]|e] s0'];
    cbn -[deriveAlgorandAccounts withConnectorName]; [|discriminate].
  destruct (deriveAlgorandAccounts (withConnectorName env ci) evmAddresses (Some ci) s0')
    as [[wa|e] s1] eqn:Hd; cbn; [|discriminate].
  destruct evmAddresses as [|e0 rest], wa as [|a0 wa]; cbn; try discriminate.
  intros H. injection H as <- _.
  exact (deriveAlgorandAccounts_evmAddresses _ _ _ _ _ _ Hd).
Qed.

Lemma metaMaskDeriveLoop_accounts env i evmAddresses acc s accs s' :
  metaMaskDeriveLoop env i evmAddresses acc s = (Ok accs, s') ->
  length accs = length acc + length evmAddresses /\
  (Forall (fun a => acc_metadata a = None) acc -> Forall (fun a => acc_metadata a = None) accs).
Proof.
  revert i acc s; induction evmAddresses as [|e rest IH]; intros i acc s H; cbn in H.
  - injection H as <- _. split; [cbn; lia | done].
  - destruct (env_getAddress env e) as [a|err]; cbn in H; [|discriminate].
    destruct (IH _ _ _ H) as [Hl Hf]. rewrite length_app in Hl. cbn in Hl.
    split; [cbn; lia|]. intros Hacc. apply Hf. apply Forall_app. split; [done|].
    by constructor.
Qed.

Lemma metaMaskConnect_accounts env evmAddresses st accs st' :
  metaMaskConnect env evmAddresses st = (Ok accs, st') ->
  length accs = length evmAddresses /\ Forall (fun a => evmAddressOf a = None) accs.
Proof.
  unfold metaMaskConnect, metaMaskDeriveAlgorandAccounts, bind.
  destruct (initializeEvmSdk env st) as [[[]|e] s0]; [|discriminate].
  destruct evmAddresses as [|e0 rest]; [discriminate|].
  destruct (initializeEvmSdk env s0) as [[[]|e] s1]; [|discriminate].
  destruct (metaMaskDeriveLoop env 0 (e0 :: rest) [] s1) as [[wa|e] s2] eqn:Hd;
    cbn; [|discriminate].
  intros H. injection H as <- _.
  destruct (metaMaskDeriveLoop_accounts _ _ _ _ _ _ _ Hd) as [Hl Hf].
  split; [done|]. eapply Forall_impl; [apply Hf; constructor|].
  intros a Ha. unfold evmAddressOf. by rewrite Ha.
Qed.

(** C7 (counterexample): [MetaMaskWallet.connect] with source addresses
    ["0xA"; "0xB"] returns two accounts, but neither records its source
    address in its metadata (it has none). *)
Lemma metaMaskConnect_records_no_source :
  exists accs st',
    metaMaskConnect Demo.env ["0xA"; "0xB"] Demo.stateEmpty = (Ok accs, st') /\
    length accs = 2 /\
    map evmAddressOf accs <> map Some ["0xA"; "0xB"].
Proof.
  do 2 eexists. split; [vm_compute; reflexivity|].
  split; [reflexivity|]. vm_compute. discriminate.
Qed.

Lemma rainbowConnect_accounts env initError providerError evmAddresses st accs st' :
  rainbowConnect env initError providerError (Ok evmAddresses) st = (Ok accs, st') ->
  map evmAddressOf accs = map Some evmAddresses.
Proof.
  unfold rainbowConnect. intros H.
  apply bind_ok_inv in H as ([] & s1 & _ & H).
  apply bind_ok_inv in H as ([] & s2 & _ & H).
  apply bind_ok_inv in H as ([] & s3 & _ & H).
  unfold tryCatch in H.
  match type of H with context [match ?b s3 with _ => _ end] =>
    destruct (b s3) as [[a|e] s4] eqn:Hb end;
    [|destruct (errorMessage e); discriminate].
  injection H as <- _.
  apply bind_ok_inv in Hb as (evms & s5 & Hl & Hb).
  unfold liftR in Hl. injection Hl as <- <-.
  destruct evmAddresses as [|evm0 rest]; [discriminate|].
  apply bind_ok_inv in Hb as (wa & s6 & Hd & Hb). cbv beta zeta in Hb.
  apply bind_ok_inv in Hb as ([] & s7 & _ & Hb).
  destruct (head wa); [|discriminate].
  apply bind_ok_inv in Hb as ([] & s8 & _ & Hb). injection Hb as <- _.
  exact (deriveAlgorandAccounts_evmAddresses _ _ _ _ _ _ Hd).
Qed.

(** C7 (amended): for the connectors built on
    [LiquidEvmBaseWallet.deriveAlgorandAccounts], [RainbowKitWallet.connect]
    (when no other connect is in progress) and [RainbowWallet.connect], a
    successful connect returns one account per source address, in input
    order, each recording that address as [metadata.evmAddress];
    [MetaMaskWallet.connect] also returns one account per source address,
    but its accounts carry no metadata, hence no recorded source address. *)
Theorem connect_accounts_follow_input (env : Env) (evmAddresses : list string)
    (ci : ConnectorInfo) (initError providerError : option JsError)
    (st st1 st2 st3 : WState) (accs1 accs2 accs3 : list WalletAccount) :
  st_connecting st = false ->
  rainbowKitConnect env evmAddresses ci st = (Ok accs1, st1) ->
  metaMaskConnect env evmAddresses st = (Ok accs2, st2) ->
  rainbowConnect env initError providerError (Ok evmAddresses) st = (Ok accs3, st3) ->
  map evmAddressOf accs1 = map Some evmAddresses /\
  map evmAddressOf accs3 = map Some evmAddresses /\
  length accs2 = length evmAddresses /\
  Forall (fun a => evmAddressOf a = None) accs2.
Proof.
  intros Hc H1 H2 H3. split; [exact (rainbowKitConnect_accounts _ _ _ _ _ _ Hc H1)|].
  split; [exact (rainbowConnect_accounts _ _ _ _ _ _ _ H3)|].
  exact (metaMaskConnect_accounts _ _ _ _ _ H2).
Qed.

Lemma connect_accounts_follow_input_witness :
  map evmAddressOf
    [mkAccount "MetaMask 0xA" "ALGO_0xA" (Some (mkMetadata (Some "0xA") (Some "MetaMask") None));
     mkAccount "MetaMask 0xB" "ALGO_0xB" (Some (mkMetadata (Some "0xB") (Some "MetaMask") None))]
  = map Some ["0xA"; "0xB"] /\
  map evmAddressOf
    [mkAccount "EVM Wallet 0xA" "ALGO_0xA" (Some (mkMetadata (Some "0xA") None None));
     mkAccount "EVM Wallet 0xB" "ALGO_0xB" (Some (mkMetadata (Some "0xB") None None))]
  = map Some ["0xA"; "0xB"] /\
  length [mkAccount "EVM Wallet Account 1" "ALGO_0xA" None;
          mkAccount "EVM Wallet Account 2" "ALGO_0xB" None] = length ["0xA"; "0xB"] /\
  Forall (fun a => evmAddressOf a = None)
    [mkAccount "EVM Wallet Account 1" "ALGO_0xA" None;
     mkAccount "EVM Wallet Account 2" "ALGO_0xB" None].
Proof.
  eapply (connect_accounts_follow_input Demo.env ["0xA"; "0xB"]
            (mkConnectorInfo (Some "MetaMask") None) None None Demo.stateEmpty).
  - reflexivity.
  - vm_compute. reflexivity.
  - vm_compute. reflexivity.
  - vm_compute. reflexivity.
Defined.

(* ------------------------------------------------------------------ *)
(** ** Session resume *)

(** C8: on resume, when the persisted session exists and the fresh
    derivation succeeds, [resumeWithAccounts] calls [setAccountsFn] with the
    freshly derived accounts as its last step, also when their address set
    equals the persisted one ([compareAccounts] holds) and only the connector
    metadata changed. *)
Theorem resumeWithAccounts_refreshes_metadata (env : Env) (evmAddresses : list string)
    (ci : option ConnectorInfo) (st st1 : WState) (ws : WalletState)
    (accs : list WalletAccount) :
  env_walletState env = Some ws ->
  deriveAlgorandAccounts env evmAddresses ci
    (mkWState (rebuildEvmAddressMap (ws_accounts ws) (st_evmAddressMap st))
       (st_sdkReady st) (st_connecting st) (st_trace st)) = (Ok accs, st1) ->
  compareAccounts accs (ws_accounts ws) = true ->
  map acc_metadata accs <> map acc_metadata (ws_accounts ws) ->
  exists st', resumeWithAccounts env evmAddresses ci st = (Ok tt, st') /\
    st_trace st' = st_trace st1 ++ [EvSetAccounts accs].
Proof.
  intros Hws Hd Hcmp _. unfold resumeWithAccounts. rewrite Hws.
  unfold bind at 1, modifyMap. cbn -[deriveAlgorandAccounts].
  unfold bind at 1. rewrite Hd. rewrite Hcmp. cbn.
  eexists. split; reflexivity.
Qed.

Lemma resumeWithAccounts_refreshes_metadata_witness :
  env_walletState Demo.envPersisted = Some Demo.persisted /\
  deriveAlgorandAccounts Demo.envPersisted ["0xA"] (Some (mkConnectorInfo (Some "MetaMask") None))
    (mkWState (rebuildEvmAddressMap (ws_accounts Demo.persisted) (st_evmAddressMap Demo.stateEmpty))
       (st_sdkReady Demo.stateEmpty) (st_connecting Demo.stateEmpty) (st_trace Demo.stateEmpty))
  = (Ok [mkAccount "EVM Wallet 0xA" "ALGO_0xA" (Some (mkMetadata (Some "0xA") (Some "MetaMask") None))],
     mkWState (<["ALGO_0xA" := "0xA"]> (<["ALGO_0xA" := "0xA"]> ∅)) true false [EvGetAddress "0xA"]) /\
  compareAccounts
    [mkAccount "EVM Wallet 0xA" "ALGO_0xA" (Some (mkMetadata (Some "0xA") (Some "MetaMask") None))]
    (ws_accounts Demo.persisted) = true /\
  map acc_metadata
    [mkAccount "EVM Wallet 0xA" "ALGO_0xA" (Some (mkMetadata (Some "0xA") (Some "MetaMask") None))]
  <> map acc_metadata (ws_accounts Demo.persisted) /\
  exists st', resumeWithAccounts Demo.envPersisted ["0xA"]
                (Some (mkConnectorInfo (Some "MetaMask") None)) Demo.stateEmpty = (Ok tt, st') /\
    st_trace st' = [EvGetAddress "0xA"] ++
      [EvSetAccounts [mkAccount "EVM Wallet 0xA" "ALGO_0xA"
                        (Some (mkMetadata (Some "0xA") (Some "MetaMask") None))]].
Proof.
  assert (Hd : deriveAlgorandAccounts Demo.envPersisted ["0xA"]
                 (Some (mkConnectorInfo (Some "MetaMask") None))
    (mkWState (rebuildEvmAddressMap (ws_accounts Demo.persisted) (st_evmAddressMap Demo.stateEmpty))
       (st_sdkReady Demo.stateEmpty) (st_connecting Demo.stateEmpty) (st_trace Demo.stateEmpty))
  = (Ok [mkAccount "EVM Wallet 0xA" "ALGO_0xA" (Some (mkMetadata (Some "0xA") (Some "MetaMask") None))],
     mkWState (<["ALGO_0xA" := "0xA"]> (<["ALGO_0xA" := "0xA"]> ∅)) true false [EvGetAddress "0xA"]))
    by reflexivity.
  assert (Hm : map acc_metadata
    [mkAccount "EVM Wallet 0xA" "ALGO_0xA" (Some (mkMetadata (Some "0xA") (Some "MetaMask") None))]
    <> map acc_metadata (ws_accounts Demo.persisted)) by (vm_compute; discriminate).
  split; [reflexivity|]. split; [exact Hd|]. split; [reflexivity|]. split; [exact Hm|].
  exact (resumeWithAccounts_refreshes_metadata Demo.envPersisted ["0xA"]
           (Some (mkConnectorInfo (Some "MetaMask") None)) Demo.stateEmpty _ Demo.persisted _
           eq_refl Hd eq_refl Hm).
Defined.

(* ------------------------------------------------------------------ *)
(** ** Failure path of signTransactions *)

(** The [catch] block on an [Error]-like object: the failure hook (if any)
    receives [false] and the message, whatever it throws is dropped, and
    the same error is rethrown. *)
Lemma signFailure_error_object env name msg code s :
  signFailure env (JsErrorObj name msg code) s =
  (Throw (JsErrorObj name msg code),
   match onAfterSign env with
   | None => s
   | Some _ => mkWState (st_evmAddressMap s) (st_sdkReady s) (st_connecting s)
                 (st_trace s ++ [EvAfterSign false (msg)])
   end).
Proof. unfold signFailure, bind. destruct (onAfterSign env); reflexivity. Qed.

Lemma signTransactions_error_object env txnGroup F st name msg code st0 :
  signTransactionsTry env txnGroup F st = (Throw (JsErrorObj name msg code), st0) ->
  signTransactions env txnGroup F st =
  (Throw (JsErrorObj name msg code),
   match onAfterSign env with
   | None => st0
   | Some _ => mkWState (st_evmAddressMap st0) (st_sdkReady st0) (st_connecting st0)
                 (st_trace st0 ++ [EvAfterSign false msg])
   end).
Proof.
  intros H. unfold signTransactions, tryCatch. rewrite H.
  apply signFailure_error_object.
Qed.

(** C9 (failing input): when the [onBeforeSign] hook rejects with
    [undefined], the [catch] block's [error.message] throws a [TypeError]:
    the [onAfterSign] hook is never called (its call is skipped inside the
    inner [try]) and [logger.error(.., error.message)] replaces the original
    rejection by that [TypeError]. *)
Theorem signTransactions_nullish_rejection :
  let '(r, st') := signTransactions Demo.envRejectingHook (GroupTxns (Flat [Demo.txA0])) None
                     Demo.state0 in
  r = Throw typeErrorMessage /\ r <> Throw JsNullish /\
  onAfterSign Demo.envRejectingHook <> None /\
  st_trace st' = [EvBeforeSign].
Proof.
  vm_compute. split; [reflexivity|]. split; [discriminate|]. split; [discriminate | reflexivity].
Qed.

(* ------------------------------------------------------------------ *)
(** ** Source address of a signing batch *)

Lemma extendsWith_refl P s s' : st_trace s' = st_trace s -> extendsWith P s s'.
Proof. intros H. exists []. rewrite H, app_nil_r. done. Qed.

Lemma extendsWith_trans P s1 s2 s3 :
  extendsWith P s1 s2 -> extendsWith P s2 s3 -> extendsWith P s1 s3.
Proof.
  intros (e1 & H1 & F1) (e2 & H2 & F2). exists (e1 ++ e2).
  rewrite H2, H1, app_assoc. split; [done|]. by apply Forall_app.
Qed.

Lemma TraceOnly_ret {A} P (a : A) : TraceOnly P (ret a).
Proof. intros s. by apply extendsWith_refl. Qed.

Lemma TraceOnly_throw {A} P e : TraceOnly P (@throw A e).
Proof. intros s. by apply extendsWith_refl. Qed.

Lemma TraceOnly_liftR {A} P (r : Result A) : TraceOnly P (liftR r).
Proof. intros s. by apply extendsWith_refl. Qed.

Lemma TraceOnly_emit P ev : P ev -> TraceOnly P (emit ev).
Proof. intros H s. exists [ev]. split; [done|]. by constructor. Qed.

Lemma TraceOnly_bind {A B} P (m : M A) (k : A -> M B) :
  TraceOnly P m -> (forall a, TraceOnly P (k a)) -> TraceOnly P (bind m k).
Proof.
  intros Hm Hk s. unfold bind. specialize (Hm s).
  destruct (m s) as [[a|e] s'] eqn:E; cbn in *.
  - eapply extendsWith_trans; [exact Hm | apply Hk].
  - exact Hm.
Qed.

Lemma TraceOnly_tryCatch {A} P (body : M A) h :
  TraceOnly P body -> (forall e, TraceOnly P (h e)) -> TraceOnly P (tryCatch body h).
Proof.
  intros Hb Hh s. unfold tryCatch. specialize (Hb s).
  destruct (body s) as [[a|e] s'] eqn:E; cbn in *.
  - exact Hb.
  - eapply extendsWith_trans; [exact Hb | apply Hh].
Qed.

(** Events other than a call of the SDK's [signTxn] with another address. *)
Definition signsOnlyWith (resolved : option string) (ev : Event) : Prop :=
  forall evm txns, ev = EvSignTxn evm txns -> resolved = Some evm.

Ltac trace_only :=
  repeat match goal with
  | |- TraceOnly _ (bind _ _) => apply TraceOnly_bind; [|intros ?]
  | |- TraceOnly _ (ret _) => apply TraceOnly_ret
  | |- TraceOnly _ (throw _) => apply TraceOnly_throw
  | |- TraceOnly _ (liftR _) => apply TraceOnly_liftR
  | |- TraceOnly _ (emit (EvSignTxn _ _)) => idtac
  | |- TraceOnly _ (emit _) => apply TraceOnly_emit; intros ? ? ?; discriminate
  | |- TraceOnly _ (match ?x with _ => _ end) => destruct x
  | |- TraceOnly _ (if ?x then _ else _) => destruct x
  end.

Lemma runBeforeSign_trace env g F r : TraceOnly (signsOnlyWith r) (runBeforeSign env g F).
Proof. unfold runBeforeSign. trace_only. Qed.

Lemma ensureAlgorandChain_trace env r : TraceOnly (signsOnlyWith r) (ensureAlgorandChain env).
Proof. unfold ensureAlgorandChain. trace_only. Qed.

Lemma runAfterSignSuccess_trace env r : TraceOnly (signsOnlyWith r) (runAfterSignSuccess env).
Proof. unfold runAfterSignSuccess. trace_only. Qed.

Lemma signFailure_trace env r e : TraceOnly (signsOnlyWith r) (signFailure env e).
Proof. unfold signFailure. trace_only. Qed.

Lemma callSignTxn_trace env evm txns :
  TraceOnly (signsOnlyWith (Some evm)) (callSignTxn env evm txns).
Proof.
  unfold callSignTxn. apply TraceOnly_bind; [|intros; apply TraceOnly_liftR].
  apply TraceOnly_emit. intros e t H. by injection H as -> _.
Qed.

Lemma truthyStr_some v : v <> "" -> truthyStr (Some v) = true.
Proof.
  intros H. unfold truthyStr. destruct (String.eqb v "") eqn:E; [|done].
  apply String.eqb_eq in E. contradiction.
Qed.

Lemma rebuildEvmAddressMap_nonempty accounts (m : gmap string string) :
  map_Forall (fun _ v => v <> "") m ->
  map_Forall (fun _ v => v <> "") (rebuildEvmAddressMap accounts m).
Proof.
  revert m; induction accounts as [|account rest IH]; intros m Hm; cbn; [done|].
  apply IH. destruct (acc_metadata account) as [md|]; [|done].
  destruct (md_evmAddress md) as [a|]; [|done].
  unfold truthyStr. destruct (String.eqb a "") eqn:E; cbn; [done|].
  apply map_Forall_insert_2; [|done]. intros Ha. subst. discriminate.
Qed.

Lemma resolveSourceAddress_nonempty env m a v :
  map_Forall (fun _ v => v <> "") m ->
  resolveSourceAddress env m a = Some v -> v <> "".
Proof.
  intros Hm. unfold resolveSourceAddress.
  destruct (m !! a) as [w|] eqn:E.
  - intros H. injection H as <-. exact (map_Forall_lookup_1 _ _ _ _ Hm E).
  - destruct (env_walletState env) as [ws|]; [|discriminate]. intros H.
    exact (map_Forall_lookup_1 _ _ _ _ (rebuildEvmAddressMap_nonempty (ws_accounts ws) m Hm) H).
Qed.

Lemma lookupEvmAddress_spec env a st :
  map_Forall (fun _ v => v <> "") (st_evmAddressMap st) ->
  exists st', lookupEvmAddress env a st =
                (Ok (resolveSourceAddress env (st_evmAddressMap st) a), st') /\
              st_trace st' = st_trace st.
Proof.
  intros Hm. unfold lookupEvmAddress, resolveSourceAddress, bind, getMap. cbn.
  destruct (st_evmAddressMap st !! a) as [v|] eqn:E.
  - rewrite truthyStr_some by exact (map_Forall_lookup_1 _ _ _ _ Hm E).
    eexists; split; reflexivity.
  - cbn. destruct (env_walletState env); cbn; eexists; split; reflexivity.
Qed.

Lemma tryCatch_bind_ok {A B} (m : M A) (k : A -> M B) h s a s' :
  m s = (Ok a, s') -> tryCatch (bind m k) h s = tryCatch (k a) h s'.
Proof. intros H. unfold tryCatch, bind. rewrite H. reflexivity. Qed.

Lemma metaMaskSignTransactions_unmapped (env : Env) (txnGroup : TxnGroupArg)
    (F : option (list nat)) (st : WState) (entries : list (Transaction * bool))
    (firstTxn : Transaction) (rest : list Transaction) :
  sdkAvailable env st ->
  normalizeEntries txnGroup = Ok entries ->
  eligibleEntries F (env_addresses env) entries = firstTxn :: rest ->
  truthyStr (st_evmAddressMap st !! sender firstTxn) = false ->
  metaMaskSignTransactions env txnGroup F st =
    (Throw (noEvmAddressError (sender firstTxn)), readyState st).
Proof.
  intros Hs Hn Hel Ht.
  destruct (selectTxnsToSign_entries env txnGroup F entries Hn) as [Hf Hsel].
  rewrite Hel in Hsel.
  unfold metaMaskSignTransactions, tryCatch, bind at 1.
  unfold bind at 1. rewrite (initializeEvmSdk_ready _ _ Hs).
  unfold bind at 1, liftR. rewrite Hf.
  unfold bind at 1. rewrite Hsel.
  unfold bind, getMap. cbn.
  destruct (st_evmAddressMap st !! sender firstTxn) as [v|] eqn:E; cbn.
  - cbn in Ht. rewrite Ht. reflexivity.
  - reflexivity.
Qed.

(** In [LiquidEvmBaseWallet.signTransactions], the source address is the map
    entry of the first eligible sender, or the one found after the rebuild
    from the persisted accounts. *)
Lemma signTransactions_source_address_base (env : Env) (txnGroup : TxnGroupArg)
    (F : option (list nat)) (st : WState) (entries : list (Transaction * bool))
    (firstTxn : Transaction) (rest : list Transaction) :
  sdkAvailable env st ->
  map_Forall (fun _ v => v <> "") (st_evmAddressMap st) ->
  normalizeEntries txnGroup = Ok entries ->
  eligibleEntries F (env_addresses env) entries = firstTxn :: rest ->
  let resolved := resolveSourceAddress env (st_evmAddressMap st) (sender firstTxn) in
  let '(r, st') := signTransactions env txnGroup F st in
  extendsWith (signsOnlyWith resolved) st st' /\
  (resolved = None -> r = Throw (noEvmAddressError (sender firstTxn))).
Proof.
  intros Hs Hm Hn Hel. cbv zeta.
  destruct (selectTxnsToSign_entries env txnGroup F entries Hn) as [Hf Hsel].
  rewrite Hel in Hsel.
  destruct (lookupEvmAddress_spec env (sender firstTxn) (readyState st) Hm) as (stl & Hl & Htr).
  unfold signTransactions, signTransactionsTry.
  rewrite (tryCatch_bind_ok _ _ _ _ _ _ (initializeEvmSdk_ready _ _ Hs)).
  rewrite (tryCatch_bind_ok _ _ _ _ (map fst entries) (readyState st))
    by (unfold liftR; rewrite Hf; reflexivity).
  rewrite (tryCatch_bind_ok _ _ _ _ (firstTxn :: rest) (readyState st))
    by (unfold liftR; rewrite Hsel; reflexivity).
  cbv beta iota.
  rewrite (tryCatch_bind_ok _ _ _ _ _ _ Hl). cbn [readyState st_evmAddressMap].
  assert (Hst : extendsWith (signsOnlyWith (resolveSourceAddress env (st_evmAddressMap st)
                                              (sender firstTxn))) st stl)
    by (apply extendsWith_refl; rewrite Htr; reflexivity).
  destruct (resolveSourceAddress env (st_evmAddressMap st) (sender firstTxn)) as [v|] eqn:Hres.
  - rewrite truthyStr_some by exact (resolveSourceAddress_nonempty _ _ _ _ Hm Hres).
    match goal with |- context [tryCatch ?b ?h stl] =>
      pose proof (TraceOnly_tryCatch (signsOnlyWith (Some v)) b h) as Ht end.
    match goal with |- context [tryCatch ?b ?h stl] => destruct (tryCatch b h stl) as [r st'] eqn:E end.
    split; [|discriminate].
    eapply extendsWith_trans; [exact Hst|].
    change st' with (snd (r, st')). rewrite <- E. apply Ht.
    + trace_only; first [apply runBeforeSign_trace | apply ensureAlgorandChain_trace
                        | apply callSignTxn_trace | apply runAfterSignSuccess_trace].
    + intros e. apply signFailure_trace.
  - unfold tryCatch, throw, noEvmAddressError. cbv beta iota.
    rewrite signFailure_error_object.
    split; [|reflexivity].
    eapply extendsWith_trans; [exact Hst|].
    destruct (onAfterSign env); [|apply extendsWith_refl; done].
    exists [EvAfterSign false (Some ("No EVM address found for Algorand address: " ++ sender firstTxn)%string)].
    split; [done|]. constructor; [|constructor]. intros ? ? H. discriminate.
Qed.

(** In [MetaMaskWallet.signTransactions], the source address is the map entry
    of the first eligible sender, and nothing else. *)
Lemma metaMaskSignTransactions_map_only (env : Env) (txnGroup : TxnGroupArg)
    (F : option (list nat)) (st : WState) (entries : list (Transaction * bool))
    (firstTxn : Transaction) (rest : list Transaction) :
  sdkAvailable env st ->
  normalizeEntries txnGroup = Ok entries ->
  eligibleEntries F (env_addresses env) entries = firstTxn :: rest ->
  let mapped := st_evmAddressMap st !! sender firstTxn in
  let '(r, st') := metaMaskSignTransactions env txnGroup F st in
  extendsWith (signsOnlyWith mapped) st st' /\
  (truthyStr mapped = false -> r = Throw (noEvmAddressError (sender firstTxn))).
Proof.
  intros Hs Hn Hel. cbv zeta.
  destruct (truthyStr (st_evmAddressMap st !! sender firstTxn)) eqn:Ht.
  2: { rewrite (metaMaskSignTransactions_unmapped env txnGroup F st entries firstTxn rest
                  Hs Hn Hel Ht).
       split; [apply extendsWith_refl; reflexivity | done]. }
  destruct (st_evmAddressMap st !! sender firstTxn) as [v|] eqn:E; [|discriminate].
  destruct (selectTxnsToSign_entries env txnGroup F entries Hn) as [Hf Hsel].
  rewrite Hel in Hsel.
  unfold metaMaskSignTransactions.
  rewrite (tryCatch_bind_ok _ _ _ _ _ _ (initializeEvmSdk_ready _ _ Hs)).
  rewrite (tryCatch_bind_ok _ _ _ _ (map fst entries) (readyState st))
    by (unfold liftR; rewrite Hf; reflexivity).
  rewrite (tryCatch_bind_ok _ _ _ _ (firstTxn :: rest) (readyState st))
    by (unfold liftR; rewrite Hsel; reflexivity).
  cbv beta iota.
  rewrite (tryCatch_bind_ok _ _ _ _ (st_evmAddressMap st) (readyState st)) by reflexivity.
  cbv beta zeta. rewrite E, Ht.
  match goal with |- context [tryCatch ?b ?h ?s0] =>
    pose proof (TraceOnly_tryCatch (signsOnlyWith (Some v)) b h) as HT;
    destruct (tryCatch b h s0) as [r st'] eqn:Er end.
  split; [|discriminate].
  eapply extendsWith_trans; [apply (extendsWith_refl _ st (readyState st)); reflexivity|].
  change st' with (snd (r, st')). rewrite <- Er. apply HT.
  - apply TraceOnly_bind; [apply callSignTxn_trace|]. intros. apply TraceOnly_ret.
  - intros e. destruct (errorMessage e); apply TraceOnly_throw.
Qed.

(** C4 (counterexample): [MetaMaskWallet.signTransactions] on an instance
    whose map is empty (after a page reload) while the persisted account
    records "0xA" for the sender: the rebuild from the persisted metadata
    would resolve the sender to "0xA", yet the call throws "No EVM address
    found". *)
Lemma metaMaskSignTransactions_no_rebuild :
  resolveSourceAddress Demo.envPersisted (st_evmAddressMap Demo.stateEmpty) (sender Demo.txA0)
    = Some "0xA" /\
  fst (metaMaskSignTransactions Demo.envPersisted (GroupTxns (Flat [Demo.txA0])) None
         Demo.stateEmpty)
    = Throw (noEvmAddressError (sender Demo.txA0)).
Proof. split; vm_compute; reflexivity. Qed.

(** C4 (amended): when the group has an eligible entry,
    [LiquidEvmBaseWallet.signTransactions] signs only with the map entry of
    the first eligible entry's sender or, when the map has no entry for it,
    with the entry found after rebuilding the map from the persisted
    accounts' metadata, and throws "No EVM address found" (after the failure
    hook) when neither lookup finds one; [MetaMaskWallet.signTransactions]
    has no rebuild: it signs only with the map entry of that sender, and
    throws "No EVM address found" when the map has none.  The map is
    assumed to hold real (non-empty) EVM addresses, as the provider supplies
    them. *)
Theorem signTransactions_source_address (env : Env) (txnGroup : TxnGroupArg)
    (F : option (list nat)) (st : WState) (entries : list (Transaction * bool))
    (firstTxn : Transaction) (rest : list Transaction) :
  sdkAvailable env st ->
  map_Forall (fun _ v => v <> "") (st_evmAddressMap st) ->
  normalizeEntries txnGroup = Ok entries ->
  eligibleEntries F (env_addresses env) entries = firstTxn :: rest ->
  (let resolved := resolveSourceAddress env (st_evmAddressMap st) (sender firstTxn) in
   let '(r, st') := signTransactions env txnGroup F st in
   extendsWith (signsOnlyWith resolved) st st' /\
   (resolved = None -> r = Throw (noEvmAddressError (sender firstTxn)))) /\
  (let mapped := st_evmAddressMap st !! sender firstTxn in
   let '(r, st') := metaMaskSignTransactions env txnGroup F st in
   extendsWith (signsOnlyWith mapped) st st' /\
   (mapped = None -> r = Throw (noEvmAddressError (sender firstTxn)))).
Proof.
  intros Hs Hm Hn Hel.
  split; [exact (signTransactions_source_address_base env txnGroup F st entries firstTxn rest
                   Hs Hm Hn Hel)|].
  pose proof (metaMaskSignTransactions_map_only env txnGroup F st entries firstTxn rest
                Hs Hn Hel) as H.
  cbv zeta in *.
  destruct (metaMaskSignTransactions env txnGroup F st) as [r st'].
  destruct H as [H1 H2]. split; [exact H1|].
  intros E. apply H2. by rewrite E.
Qed.

Lemma signTransactions_source_address_witness :
  sdkAvailable Demo.envPersisted Demo.stateEmpty /\
  map_Forall (fun _ v => v <> "") (st_evmAddressMap Demo.stateEmpty) /\
  normalizeEntries (GroupTxns (Flat [Demo.txA0])) = Ok [(Demo.txA0, false)] /\
  eligibleEntries None (env_addresses Demo.envPersisted) [(Demo.txA0, false)] = [Demo.txA0] /\
  resolveSourceAddress Demo.envPersisted (st_evmAddressMap Demo.stateEmpty) (sender Demo.txA0)
    = Some "0xA" /\
  ((let resolved := resolveSourceAddress Demo.envPersisted (st_evmAddressMap Demo.stateEmpty)
                      (sender Demo.txA0) in
    let '(r, st') := signTransactions Demo.envPersisted (GroupTxns (Flat [Demo.txA0])) None
                       Demo.stateEmpty in
    extendsWith (signsOnlyWith resolved) Demo.stateEmpty st' /\
    (resolved = None -> r = Throw (noEvmAddressError (sender Demo.txA0)))) /\
   (let mapped := st_evmAddressMap Demo.stateEmpty !! sender Demo.txA0 in
    let '(r, st') := metaMaskSignTransactions Demo.envPersisted (GroupTxns (Flat [Demo.txA0]))
                       None Demo.stateEmpty in
    extendsWith (signsOnlyWith mapped) Demo.stateEmpty st' /\
    (mapped = None -> r = Throw (noEvmAddressError (sender Demo.txA0))))).
Proof.
  assert (Hs : sdkAvailable Demo.envPersisted Demo.stateEmpty) by (left; reflexivity).
  assert (Hm : map_Forall (fun _ v => v <> "") (st_evmAddressMap Demo.stateEmpty))
    by apply map_Forall_empty.
  assert (Hel : eligibleEntries None (env_addresses Demo.envPersisted) [(Demo.txA0, false)]
                = [Demo.txA0]) by (vm_compute; reflexivity).
  split; [exact Hs|]. split; [exact Hm|]. split; [reflexivity|]. split; [exact Hel|].
  split; [vm_compute; reflexivity|].
  exact (signTransactions_source_address Demo.envPersisted (GroupTxns (Flat [Demo.txA0])) None
           Demo.stateEmpty [(Demo.txA0, false)] Demo.txA0 [] Hs Hm eq_refl Hel).
Defined.

(* ------------------------------------------------------------------ *)
(** ** Further properties: the signing flow of the base class *)

Lemma signFailure_not_ok env e s r s' : signFailure env e s <> (Ok r, s').
Proof.
  unfold signFailure, bind, emit, throw, ret.
  destruct (onAfterSign env), (errorMessage e); discriminate.
Qed.

Lemma length_buildResult env F blobs k flat :
  length (buildResult env F blobs k flat) = length flat.
Proof. revert k; induction flat; intros k; cbn; [done|]. by rewrite IHflat. Qed.

(** X1: Whenever [signTransactions] returns, its array has one entry per
    transaction of the flattened group (for a group with a first
    transaction, see [groupFirstEntryPresent]). *)
Theorem signTransactions_result_length (env : Env) (txnGroup : TxnGroupArg)
    (F : option (list nat)) (st st' : WState) (flat : list Transaction)
    (r : list (option SignedBlob)) :
  groupFirstEntryPresent txnGroup = true ->
  flatTransactions txnGroup = Ok flat ->
  signTransactions env txnGroup F st = (Ok r, st') ->
  length r = length flat.
Proof.
  intros _ Hf H. unfold signTransactions, tryCatch in H.
  destruct (signTransactionsTry env txnGroup F st) as [[r0|e] s0] eqn:Ht;
    [injection H as -> _ | by apply signFailure_not_ok in H].
  unfold signTransactionsTry in Ht.
  apply bind_ok_inv in Ht as ([] & s1 & _ & Ht).
  apply bind_ok_inv in Ht as (flat' & s2 & Hl & Ht).
  unfold liftR in Hl. rewrite Hf in Hl. injection Hl as <- <-.
  apply bind_ok_inv in Ht as (sel & s3 & _ & Ht). cbv beta zeta in Ht.
  destruct sel as [|firstTxn rest].
  - injection Ht as <- _. by rewrite length_map.
  - apply bind_ok_inv in Ht as (evm & s4 & _ & Ht). cbv beta in Ht.
    destruct evm as [v|]; [|discriminate].
    destruct (truthyStr (Some v)); [|discriminate].
    apply bind_ok_inv in Ht as ([] & s5 & _ & Ht).
    apply bind_ok_inv in Ht as ([] & s6 & _ & Ht).
    apply bind_ok_inv in Ht as (blobs & s7 & _ & Ht).
    apply bind_ok_inv in Ht as ([] & s8 & _ & Ht).
    injection Ht as <- _. apply length_buildResult.
Qed.

Lemma signTransactions_result_length_witness :
  groupFirstEntryPresent (GroupTxns (Flat [Demo.txA0; Demo.txB1; Demo.txA2])) = true /\
  flatTransactions (GroupTxns (Flat [Demo.txA0; Demo.txB1; Demo.txA2])) =
    Ok [Demo.txA0; Demo.txB1; Demo.txA2] /\
  signTransactions Demo.env (GroupTxns (Flat [Demo.txA0; Demo.txB1; Demo.txA2])) None Demo.state0 =
    (Ok [Some (mkSigned Demo.txA0 "0xA"); None; Some (mkSigned Demo.txA2 "0xA")],
     mkWState (<["ALGO_0xA" := "0xA"]> ∅) true false
       [EvChainIdRead; EvSignTxn "0xA" [Demo.txA0; Demo.txB1; Demo.txA2]]) /\
  length [Some (mkSigned Demo.txA0 "0xA"); None; Some (mkSigned Demo.txA2 "0xA")] =
    length [Demo.txA0; Demo.txB1; Demo.txA2].
Proof.
  assert (Hs : signTransactions Demo.env (GroupTxns (Flat [Demo.txA0; Demo.txB1; Demo.txA2])) None
                 Demo.state0 =
    (Ok [Some (mkSigned Demo.txA0 "0xA"); None; Some (mkSigned Demo.txA2 "0xA")],
     mkWState (<["ALGO_0xA" := "0xA"]> ∅) true false
       [EvChainIdRead; EvSignTxn "0xA" [Demo.txA0; Demo.txB1; Demo.txA2]])) by reflexivity.
  split; [reflexivity|]. split; [reflexivity|]. split; [exact Hs|].
  exact (signTransactions_result_length Demo.env
           (GroupTxns (Flat [Demo.txA0; Demo.txB1; Demo.txA2])) None Demo.state0 _
           [Demo.txA0; Demo.txB1; Demo.txA2] _ eq_refl eq_refl Hs).
Defined.

Lemma decodeAll_malformed bs :
  EncMalformed ∈ bs -> exists e, decodeAll bs = Throw e /\ decodeTxn EncMalformed = Throw e.
Proof.
  rewrite list_elem_of_In. induction bs as [|b rest IH]; [done|]. intros [->|Hin].
  - eexists; split; reflexivity.
  - destruct (IH Hin) as (e & He & Hm). exists e. split; [|done]. cbn.
    destruct b; cbn; [rewrite He; done | rewrite He; done | cbn in Hm; injection Hm as <-; reflexivity].
Qed.

(** X2: An encoded group holding a blob that does not decode makes
    [signTransactions] throw the decoder's error: the SDK is never asked to
    sign, the address map is untouched, and the only event is the failure
    hook's [onAfterSign(false, ..)] (for a group with a first entry, see
    [firstEntryPresent]). *)
Theorem signTransactions_undecodable (env : Env) (g : TxnNest EncodedTxn)
    (F : option (list nat)) (st : WState) :
  sdkAvailable env st ->
  firstEntryPresent g = true ->
  EncMalformed ∈ flattenTxnGroup g ->
  let '(r, st') := signTransactions env (GroupEncoded g) F st in
  (exists e, r = Throw e /\ decodeTxn EncMalformed = Throw e) /\
  st_evmAddressMap st' = st_evmAddressMap st /\
  extendsWith (fun ev => exists msg, ev = EvAfterSign false msg) st st'.
Proof.
  intros Hs _ Hin. destruct (decodeAll_malformed _ Hin) as (e & Hd & Hm).
  cbn in Hm. injection Hm as <-.
  unfold signTransactions, signTransactionsTry.
  rewrite (tryCatch_bind_ok _ _ _ _ _ _ (initializeEvmSdk_ready _ _ Hs)).
  unfold tryCatch, bind at 1, liftR, flatTransactions. rewrite Hd.
  rewrite signFailure_error_object.
  destruct (onAfterSign env); cbn.
  - split; [eexists; split; reflexivity|]. split; [done|].
    eexists; split; [reflexivity|]. constructor; [eexists; reflexivity | constructor].
  - split; [eexists; split; reflexivity|]. split; [done|].
    apply extendsWith_refl. done.
Qed.

Lemma signTransactions_undecodable_witness :
  sdkAvailable Demo2.envHooks Demo.state0 /\
  firstEntryPresent (Nested [[EncUnsigned Demo.txA0]; [EncMalformed]]) = true /\
  EncMalformed ∈ flattenTxnGroup (Nested [[EncUnsigned Demo.txA0]; [EncMalformed]]) /\
  (let '(r, st') := signTransactions Demo2.envHooks
                      (GroupEncoded (Nested [[EncUnsigned Demo.txA0]; [EncMalformed]])) None Demo.state0 in
   (exists e, r = Throw e /\ decodeTxn EncMalformed = Throw e) /\
   st_evmAddressMap st' = st_evmAddressMap Demo.state0 /\
   extendsWith (fun ev => exists msg, ev = EvAfterSign false msg) Demo.state0 st').
Proof.
  assert (Hs : sdkAvailable Demo2.envHooks Demo.state0) by (left; reflexivity).
  assert (Hin : EncMalformed ∈ flattenTxnGroup (Nested [[EncUnsigned Demo.txA0]; [EncMalformed]]))
    by (apply list_elem_of_In; cbn; auto).
  split; [exact Hs|]. split; [reflexivity|]. split; [exact Hin|].
  exact (signTransactions_undecodable Demo2.envHooks
           (Nested [[EncUnsigned Demo.txA0]; [EncMalformed]]) None Demo.state0 Hs eq_refl Hin).
Defined.

(** Once the first eligible sender resolves to [v], [signTransactions] runs
    the hook, the chain guard, one SDK call with the whole flattened group,
    the success hook and the result builder, from a state whose trace is
    unchanged. *)
Lemma signTransactions_resolved env g F st entries firstTxn rest v :
  sdkAvailable env st ->
  map_Forall (fun _ v => v <> "") (st_evmAddressMap st) ->
  normalizeEntries g = Ok entries ->
  eligibleEntries F (env_addresses env) entries = firstTxn :: rest ->
  resolveSourceAddress env (st_evmAddressMap st) (sender firstTxn) = Some v ->
  exists stl, st_trace stl = st_trace st /\
    signTransactions env g F st =
    tryCatch (runBeforeSign env g F ;;; ensureAlgorandChain env ;;;
              signedBlobs <-- callSignTxn env v (map fst entries) ;;
              runAfterSignSuccess env ;;;
              ret (buildResult env F signedBlobs 0 (map fst entries)))
             (signFailure env) stl.
Proof.
  intros Hs Hm Hn Hel Hres.
  destruct (selectTxnsToSign_entries env g F entries Hn) as [Hf Hsel].
  rewrite Hel in Hsel.
  destruct (lookupEvmAddress_spec env (sender firstTxn) (readyState st) Hm) as (stl & Hl & Htr).
  exists stl. split; [exact Htr|].
  unfold signTransactions, signTransactionsTry.
  rewrite (tryCatch_bind_ok _ _ _ _ _ _ (initializeEvmSdk_ready _ _ Hs)).
  rewrite (tryCatch_bind_ok _ _ _ _ (map fst entries) (readyState st))
    by (unfold liftR; rewrite Hf; reflexivity).
  rewrite (tryCatch_bind_ok _ _ _ _ (firstTxn :: rest) (readyState st))
    by (unfold liftR; rewrite Hsel; reflexivity).
  cbv beta iota zeta.
  rewrite (tryCatch_bind_ok _ _ _ _ _ _ Hl). cbn [readyState st_evmAddressMap].
  rewrite Hres, truthyStr_some by exact (resolveSourceAddress_nonempty _ _ _ _ Hm Hres).
  reflexivity.
Qed.

Lemma state0_nonempty : map_Forall (fun _ v => v <> "") (st_evmAddressMap Demo.state0).
Proof. apply map_Forall_insert_2; [discriminate | apply map_Forall_empty]. Qed.

(** X3: When the [onBeforeSign] hook rejects with an [Error], signing stops
    there: no chain request and no SDK call are issued, the [onAfterSign]
    hook (if any) gets [false] and the message, and the hook's error is
    rethrown. *)
Theorem signTransactions_beforeSign_rejects (env : Env) (txnGroup : TxnGroupArg)
    (F : option (list nat)) (st : WState) (entries : list (Transaction * bool))
    (firstTxn : Transaction) (rest : list Transaction) (v : string)
    (hook : TxnGroupArg -> option (list nat) -> option JsError)
    (name : string) (msg : option string) (code : option Z) :
  sdkAvailable env st ->
  map_Forall (fun _ v => v <> "") (st_evmAddressMap st) ->
  normalizeEntries txnGroup = Ok entries ->
  eligibleEntries F (env_addresses env) entries = firstTxn :: rest ->
  resolveSourceAddress env (st_evmAddressMap st) (sender firstTxn) = Some v ->
  onBeforeSign env = Some hook ->
  hook txnGroup F = Some (JsErrorObj name msg code) ->
  let '(r, st') := signTransactions env txnGroup F st in
  r = Throw (JsErrorObj name msg code) /\
  st_trace st' = st_trace st ++ EvBeforeSign ::
                   (if onAfterSign env then [EvAfterSign false msg] else []).
Proof.
  intros Hs Hm Hn Hel Hres Hb Hh.
  destruct (signTransactions_resolved env txnGroup F st entries firstTxn rest v Hs Hm Hn Hel Hres)
    as (stl & Htr & ->).
  unfold tryCatch, bind at 1, runBeforeSign. rewrite Hb.
  unfold bind at 1, emit. rewrite Hh. unfold throw.
  rewrite signFailure_error_object. cbn.
  destruct (onAfterSign env); cbn; rewrite Htr; [rewrite <- app_assoc|]; done.
Qed.

Lemma signTransactions_beforeSign_rejects_witness :
  onBeforeSign Demo2.envCancel = Some (fun _ _ => Some Demo2.cancelled) /\
  (let '(r, st') := signTransactions Demo2.envCancel (GroupTxns (Flat [Demo.txA0])) None Demo.state0 in
   r = Throw Demo2.cancelled /\
   st_trace st' = st_trace Demo.state0 ++ EvBeforeSign ::
                    (if onAfterSign Demo2.envCancel
                     then [EvAfterSign false (Some "User cancelled")] else [])).
Proof.
  split; [reflexivity|].
  exact (signTransactions_beforeSign_rejects Demo2.envCancel (GroupTxns (Flat [Demo.txA0])) None
           Demo.state0 [(Demo.txA0, false)] Demo.txA0 [] "0xA" (fun _ _ => Some Demo2.cancelled)
           "Error" (Some "User cancelled") None
           (or_introl eq_refl) state0_nonempty
           eq_refl ltac:(vm_compute; reflexivity) ltac:(vm_compute; reflexivity) eq_refl eq_refl).
Defined.

(** X4: When the wallet is on another chain and rejects the switch request with
    a code outside the "chain unknown" set (for instance 4001, the user
    declined), [signTransactions] never reaches the SDK: it rethrows the
    provider's error after the failure hook. *)
Theorem signTransactions_switch_rejected (env : Env) (txnGroup : TxnGroupArg)
    (F : option (list nat)) (st : WState) (entries : list (Transaction * bool))
    (firstTxn : Transaction) (rest : list Transaction) (v cur : string)
    (switchError : ProviderError) :
  sdkAvailable env st ->
  map_Forall (fun _ v => v <> "") (st_evmAddressMap st) ->
  normalizeEntries txnGroup = Ok entries ->
  eligibleEntries F (env_addresses env) entries = firstTxn :: rest ->
  resolveSourceAddress env (st_evmAddressMap st) (sender firstTxn) = Some v ->
  onBeforeSign env = None ->
  prov_chainId (env_provider env) = inl cur ->
  String.eqb (toLowerCase cur) (toLowerCase (env_algorandChainIdHex env)) = false ->
  prov_switch (env_provider env) = Some switchError ->
  includesZ chainUnknownCodes (pe_code switchError) = false ->
  let '(r, st') := signTransactions env txnGroup F st in
  r = Throw (providerErrorToJs switchError) /\
  st_trace st' = st_trace st ++ [EvChainIdRead; EvSwitchChain (env_algorandChainIdHex env)] ++
                   (if onAfterSign env then [EvAfterSign false (pe_message switchError)] else []).
Proof.
  intros Hs Hm Hn Hel Hres Hb Hc Hne Hsw Hcode.
  destruct (signTransactions_resolved env txnGroup F st entries firstTxn rest v Hs Hm Hn Hel Hres)
    as (stl & Htr & ->).
  unfold tryCatch, bind at 1, runBeforeSign. rewrite Hb.
  unfold ret, bind at 1, ensureAlgorandChain, bind, emit, liftR, providerResult.
  cbn [st_evmAddressMap st_sdkReady st_connecting st_trace]. rewrite Hc, Hne, Hsw, Hcode.
  unfold throw, providerErrorToJs. rewrite signFailure_error_object. cbn.
  destruct (onAfterSign env); cbn; rewrite Htr, <- !app_assoc; done.
Qed.

Lemma signTransactions_switch_rejected_witness :
  (let '(r, st') := signTransactions Demo2.envRejectSwitch (GroupTxns (Flat [Demo.txA0])) None
                      Demo.state0 in
   r = Throw (providerErrorToJs Demo2.switchRejected) /\
   st_trace st' = st_trace Demo.state0 ++ [EvChainIdRead; EvSwitchChain "0x1040"] ++
                    (if onAfterSign Demo2.envRejectSwitch
                     then [EvAfterSign false (Some "User rejected the request.")] else [])).
Proof.
  exact (signTransactions_switch_rejected Demo2.envRejectSwitch (GroupTxns (Flat [Demo.txA0])) None
           Demo.state0 [(Demo.txA0, false)] Demo.txA0 [] "0xA" "0x1" Demo2.switchRejected
           (or_introl eq_refl) state0_nonempty
           eq_refl ltac:(vm_compute; reflexivity) ltac:(vm_compute; reflexivity) eq_refl eq_refl
           ltac:(vm_compute; reflexivity) eq_refl ltac:(vm_compute; reflexivity)).
Defined.

(** X5: On the success path the SDK is called exactly once, with the resolved
    source address and the whole flattened group (ineligible entries
    included), after the [onBeforeSign] hook and the chain check and before
    the [onAfterSign(true)] hook; the result is built from its answer. *)
Theorem signTransactions_signs_whole_group (env : Env) (txnGroup : TxnGroupArg)
    (F : option (list nat)) (st : WState) (entries : list (Transaction * bool))
    (firstTxn : Transaction) (rest : list Transaction) (v cur : string)
    (blobs : list SignedBlob) :
  sdkAvailable env st ->
  map_Forall (fun _ v => v <> "") (st_evmAddressMap st) ->
  normalizeEntries txnGroup = Ok entries ->
  eligibleEntries F (env_addresses env) entries = firstTxn :: rest ->
  resolveSourceAddress env (st_evmAddressMap st) (sender firstTxn) = Some v ->
  match onBeforeSign env with Some hook => hook txnGroup F = None | None => True end ->
  prov_chainId (env_provider env) = inl cur ->
  String.eqb (toLowerCase cur) (toLowerCase (env_algorandChainIdHex env)) = true ->
  env_signTxn env v (map fst entries) = Ok blobs ->
  let '(r, st') := signTransactions env txnGroup F st in
  r = Ok (buildResult env F blobs 0 (map fst entries)) /\
  st_trace st' = st_trace st ++ (if onBeforeSign env then [EvBeforeSign] else []) ++
                 [EvChainIdRead; EvSignTxn v (map fst entries)] ++
                 (if onAfterSign env then [EvAfterSign true None] else []).
Proof.
  intros Hs Hm Hn Hel Hres Hb Hc Heq Hsign.
  destruct (signTransactions_resolved env txnGroup F st entries firstTxn rest v Hs Hm Hn Hel Hres)
    as (stl & Htr & ->).
  unfold tryCatch, runBeforeSign, ensureAlgorandChain, callSignTxn, runAfterSignSuccess,
    bind, emit, liftR, providerResult, ret.
  destruct (onBeforeSign env) as [hook|]; [rewrite Hb|];
    cbn [st_evmAddressMap st_sdkReady st_connecting st_trace]; rewrite Hc, Heq, Hsign;
    destruct (onAfterSign env); cbn; rewrite Htr, <- !app_assoc; done.
Qed.

Lemma signTransactions_signs_whole_group_witness :
  (let '(r, st') := signTransactions Demo2.envHooks (GroupTxns (Flat [Demo.txA0; Demo.txB1])) None
                      Demo.state0 in
   r = Ok (buildResult Demo2.envHooks None
             [mkSigned Demo.txA0 "0xA"; mkSigned Demo.txB1 "0xA"] 0 [Demo.txA0; Demo.txB1]) /\
   st_trace st' = st_trace Demo.state0 ++ (if onBeforeSign Demo2.envHooks then [EvBeforeSign] else []) ++
                  [EvChainIdRead; EvSignTxn "0xA" [Demo.txA0; Demo.txB1]] ++
                  (if onAfterSign Demo2.envHooks then [EvAfterSign true None] else [])).
Proof.
  exact (signTransactions_signs_whole_group Demo2.envHooks (GroupTxns (Flat [Demo.txA0; Demo.txB1]))
           None Demo.state0 [(Demo.txA0, false); (Demo.txB1, false)] Demo.txA0 [] "0xA" "0x1040"
           [mkSigned Demo.txA0 "0xA"; mkSigned Demo.txB1 "0xA"]
           (or_introl eq_refl) state0_nonempty
           eq_refl ltac:(vm_compute; reflexivity) ltac:(vm_compute; reflexivity) eq_refl eq_refl
           ltac:(vm_compute; reflexivity) eq_refl).
Defined.

(* ------------------------------------------------------------------ *)
(** ** Further properties: the address map *)

(** X6: Rebuilding the map from persisted accounts overlays it: an Algorand
    address gets the EVM address of the last persisted account with that
    address and a non-empty [metadata.evmAddress]; every other entry keeps
    its previous value, and no entry is removed. *)
Theorem rebuildEvmAddressMap_lookup (accounts : list WalletAccount)
    (m : gmap string string) (a : string) :
  rebuildEvmAddressMap accounts m !! a =
  match persistedEvmAddressOf accounts a with
  | Some e => Some e
  | None => m !! a
  end.
Proof.
  revert m; induction accounts as [|account rest IH]; intros m; cbn; [done|].
  rewrite IH. destruct (persistedEvmAddressOf rest a) as [e|]; [done|].
  unfold evmAddressOf.
  destruct (acc_metadata account) as [md|]; cbn;
    [|by rewrite andb_false_r].
  destruct (md_evmAddress md) as [x|]; cbn; [|by rewrite andb_false_r].
  destruct (String.eqb x "") eqn:Ex; cbn; [by rewrite andb_false_r|].
  rewrite andb_true_r.
  destruct (String.eqb_spec (acc_address account) a) as [<-|Hne].
  - apply lookup_insert_eq.
  - by rewrite lookup_insert_ne.
Qed.

Lemma deriveLoop_spec env ci evms acc s accs s' :
  deriveLoop env ci evms acc s = (Ok accs, s') ->
  exists new, accs = acc ++ new /\
    Forall2 (fun e a => env_getAddress env e = Ok (acc_address a) /\
                        acc_name a = (env_walletName env ++ " " ++ e)%string /\
                        acc_metadata a = Some (accountMetadata e ci)) evms new /\
    st_evmAddressMap s' =
      foldl (fun m p => <[fst p := snd p]> m) (st_evmAddressMap s)
        (zip (map acc_address new) evms) /\
    st_trace s' = st_trace s ++ map EvGetAddress evms.
Proof.
  revert acc s; induction evms as [|e rest IH]; intros acc s H; cbn in H.
  - injection H as <- <-. exists []. rewrite app_nil_r. cbn.
    split; [done|]. split; [constructor|]. split; [done|]. by rewrite app_nil_r.
  - destruct (env_getAddress env e) as [alg|err] eqn:Hg; cbn in H; [|discriminate].
    destruct (IH _ _ H) as (new & -> & Hf & Hmap & Htr).
    exists (mkAccount (env_walletName env ++ " " ++ e) alg (Some (accountMetadata e ci)) :: new).
    split; [by rewrite <- app_assoc|].
    split; [constructor; [done | exact Hf]|].
    split; [exact Hmap|]. rewrite Htr. cbn. by rewrite <- app_assoc.
Qed.

(** X7: [deriveAlgorandAccounts] returns, in input order, one account per EVM
    address: its address is the SDK's derived Algorand address, its name is
    "<wallet name> <EVM address>", and its metadata holds the EVM address and
    the connector name and icon when these are non-empty strings.  The map
    gains one entry per derived address (a later one overriding an earlier
    one), and one [getAddress] request is issued per EVM address, in order. *)
Theorem deriveAlgorandAccounts_accounts (env : Env) (evmAddresses : list string)
    (ci : option ConnectorInfo) (st st' : WState) (accs : list WalletAccount) :
  deriveAlgorandAccounts env evmAddresses ci st = (Ok accs, st') ->
  Forall2 (fun e a => env_getAddress env e = Ok (acc_address a) /\
                      acc_name a = (env_walletName env ++ " " ++ e)%string /\
                      acc_metadata a =
                        Some (mkMetadata (Some e)
                                (match ci with
                                 | Some c => if truthyStr (ci_name c) then ci_name c else None
                                 | None => None end)
                                (match ci with
                                 | Some c => if truthyStr (ci_icon c) then ci_icon c else None
                                 | None => None end))) evmAddresses accs /\
  st_evmAddressMap st' =
    foldl (fun m p => <[fst p := snd p]> m) (st_evmAddressMap st)
      (zip (map acc_address accs) evmAddresses) /\
  st_trace st' = st_trace st ++ map EvGetAddress evmAddresses.
Proof.
  unfold deriveAlgorandAccounts, bind at 1.
  destruct (initializeEvmSdk env st) as [[[]|e] s0] eqn:Hi; [|discriminate].
  destruct (initializeEvmSdk_ok _ _ _ Hi) as (_ & Hm0 & Ht0 & _).
  intros H. destruct (deriveLoop_spec _ _ _ _ _ _ _ H) as (new & -> & Hf & Hmap & Htr).
  split.
  - eapply Forall2_impl; [exact Hf|]. intros e a (H1 & H2 & H3).
    split; [done|]. split; [done|]. rewrite H3. unfold accountMetadata.
    destruct ci; reflexivity.
  - rewrite Hmap, Htr, Hm0, Ht0. done.
Qed.

Lemma deriveAlgorandAccounts_accounts_witness :
  deriveAlgorandAccounts Demo.env ["0xA"; "0xB"] (Some (mkConnectorInfo (Some "") (Some "icon.svg")))
    Demo.stateEmpty =
  (Ok [mkAccount "EVM Wallet 0xA" "ALGO_0xA" (Some (mkMetadata (Some "0xA") None (Some "icon.svg")));
       mkAccount "EVM Wallet 0xB" "ALGO_0xB" (Some (mkMetadata (Some "0xB") None (Some "icon.svg")))],
   mkWState (<["ALGO_0xB" := "0xB"]> (<["ALGO_0xA" := "0xA"]> ∅)) true false
     [EvGetAddress "0xA"; EvGetAddress "0xB"]) /\
  st_trace (mkWState (<["ALGO_0xB" := "0xB"]> (<["ALGO_0xA" := "0xA"]> ∅)) true false
              [EvGetAddress "0xA"; EvGetAddress "0xB"]) =
    st_trace Demo.stateEmpty ++ map EvGetAddress ["0xA"; "0xB"].
Proof.
  assert (H : deriveAlgorandAccounts Demo.env ["0xA"; "0xB"]
                (Some (mkConnectorInfo (Some "") (Some "icon.svg"))) Demo.stateEmpty =
  (Ok [mkAccount "EVM Wallet 0xA" "ALGO_0xA" (Some (mkMetadata (Some "0xA") None (Some "icon.svg")));
       mkAccount "EVM Wallet 0xB" "ALGO_0xB" (Some (mkMetadata (Some "0xB") None (Some "icon.svg")))],
   mkWState (<["ALGO_0xB" := "0xB"]> (<["ALGO_0xA" := "0xA"]> ∅)) true false
     [EvGetAddress "0xA"; EvGetAddress "0xB"])) by reflexivity.
  split; [exact H|].
  exact (proj2 (proj2 (deriveAlgorandAccounts_accounts _ _ _ _ _ _ H))).
Defined.

Lemma deriveLoop_partial env ci pre algs e post err acc s :
  map (env_getAddress env) pre = map Ok algs ->
  env_getAddress env e = Throw err ->
  let '(r, s') := deriveLoop env ci (pre ++ e :: post) acc s in
  r = Throw err /\
  st_evmAddressMap s' =
    foldl (fun m p => <[fst p := snd p]> m) (st_evmAddressMap s) (zip algs pre) /\
  st_trace s' = st_trace s ++ map EvGetAddress (pre ++ [e]).
Proof.
  revert algs acc s; induction pre as [|x pre IH]; intros algs acc s Hpre He.
  - destruct algs; [|discriminate]. cbn. rewrite He. cbn. done.
  - destruct algs as [|alg algs]; [discriminate|]. injection Hpre as Hx Hpre.
    cbn. rewrite Hx. cbn.
    specialize (IH algs
      (acc ++ [mkAccount (env_walletName env ++ " " ++ x) alg (Some (accountMetadata x ci))])
      (mkWState (<[alg := x]> (st_evmAddressMap s)) (st_sdkReady s) (st_connecting s)
         (st_trace s ++ [EvGetAddress x])) Hpre He).
    destruct (deriveLoop env ci (pre ++ e :: post) _ _) as [r s'].
    destruct IH as (-> & Hm & Ht). split; [done|]. split; [exact Hm|].
    rewrite Ht. cbn. by rewrite <- app_assoc.
Qed.

(** X8: Derivation is not atomic: when the SDK fails on one EVM address,
    [deriveAlgorandAccounts] throws its error, issues no request for the
    addresses after it, and leaves in the map the entries already added
    for the addresses before it. *)
Theorem deriveAlgorandAccounts_partial_failure (env : Env) (pre : list string) (e : string)
    (post algs : list string) (err : JsError) (ci : option ConnectorInfo) (st : WState) :
  sdkAvailable env st ->
  map (env_getAddress env) pre = map Ok algs ->
  env_getAddress env e = Throw err ->
  let '(r, st') := deriveAlgorandAccounts env (pre ++ e :: post) ci st in
  r = Throw err /\
  st_evmAddressMap st' =
    foldl (fun m p => <[fst p := snd p]> m) (st_evmAddressMap st) (zip algs pre) /\
  st_trace st' = st_trace st ++ map EvGetAddress (pre ++ [e]).
Proof.
  intros Hs Hpre He. unfold deriveAlgorandAccounts, bind at 1.
  rewrite (initializeEvmSdk_ready _ _ Hs).
  exact (deriveLoop_partial env ci pre algs e post err [] (readyState st) Hpre He).
Qed.

Lemma deriveAlgorandAccounts_partial_failure_witness :
  (let '(r, st') := deriveAlgorandAccounts Demo2.envPartial (["0xA"] ++ "bad" :: ["0xB"]) None
                      Demo.stateEmpty in
   r = Throw Demo2.invalidAddress /\
   st_evmAddressMap st' =
     foldl (fun m p => <[fst p := snd p]> m) (st_evmAddressMap Demo.stateEmpty)
       (zip ["ALGO_0xA"] ["0xA"]) /\
   st_trace st' = st_trace Demo.stateEmpty ++ map EvGetAddress (["0xA"] ++ ["bad"])).
Proof.
  exact (deriveAlgorandAccounts_partial_failure Demo2.envPartial ["0xA"] "bad" ["0xB"] ["ALGO_0xA"]
           Demo2.invalidAddress None Demo.stateEmpty (or_introl eq_refl) eq_refl eq_refl).
Defined.

(* ------------------------------------------------------------------ *)
(** ** Further properties: connect *)

Lemma deriveLoop_ok env ci evms algs acc s :
  map (env_getAddress env) evms = map Ok algs ->
  exists accs s', deriveLoop env ci evms acc s = (Ok accs, s') /\
    st_sdkReady s' = st_sdkReady s /\ st_connecting s' = st_connecting s.
Proof.
  revert algs acc s; induction evms as [|e rest IH]; intros algs acc s H.
  - by exists acc, s.
  - destruct algs as [|alg algs]; [discriminate|]. injection H as He H.
    cbn. rewrite He. cbn.
    destruct (IH algs
      (acc ++ [mkAccount (env_walletName env ++ " " ++ e) alg (Some (accountMetadata e ci))])
      (mkWState (<[alg := e]> (st_evmAddressMap s)) (st_sdkReady s) (st_connecting s)
         (st_trace s ++ [EvGetAddress e])) H) as (accs & s' & Hd & Hr & Hc).
    exists accs, s'. rewrite Hd. done.
Qed.

Lemma Forall2_getAddress_map env evms accs algs :
  Forall2 (fun e a => env_getAddress env e = Ok (acc_address a)) evms accs ->
  map (env_getAddress env) evms = map Ok algs ->
  map acc_address accs = algs.
Proof.
  intros Hf. revert algs; induction Hf as [|e a evms accs Ha Hf IH]; intros algs H.
  - by destruct algs.
  - destruct algs as [|alg algs]; [discriminate|]. injection H as He H.
    cbn. f_equal; [congruence|]. by apply IH.
Qed.

Lemma deriveAlgorandAccounts_ok env evms algs ci s :
  sdkAvailable env s ->
  map (env_getAddress env) evms = map Ok algs ->
  exists accs s', deriveAlgorandAccounts env evms ci s = (Ok accs, s') /\
    map acc_address accs = algs /\ st_sdkReady s' = true /\
    st_connecting s' = st_connecting s /\
    st_trace s' = st_trace s ++ map EvGetAddress evms /\
    Forall2 (fun e a => acc_metadata a = Some (accountMetadata e ci)) evms accs.
Proof.
  intros Hs Ha. unfold deriveAlgorandAccounts, bind at 1.
  rewrite (initializeEvmSdk_ready _ _ Hs).
  destruct (deriveLoop_ok env ci evms algs [] (readyState s) Ha) as (accs & s' & Hd & Hr & Hc).
  destruct (deriveLoop_spec _ _ _ _ _ _ _ Hd) as (new & -> & Hf & _ & Ht).
  exists new, s'. split; [exact Hd|]. split.
  - eapply Forall2_getAddress_map; [|exact Ha].
    eapply Forall2_impl; [exact Hf|]. by intros ? ? [? _].
  - split; [done|]. split; [done|]. split; [done|].
    eapply Forall2_impl; [exact Hf|]. by intros ? ? (_ & _ & ?).
Qed.

Lemma withConnectorName_fields env ci :
  env_walletState (withConnectorName env ci) = env_walletState env /\
  env_sdkInit (withConnectorName env ci) = env_sdkInit env /\
  env_getAddress (withConnectorName env ci) = env_getAddress env /\
  env_walletName (withConnectorName env ci) = nameAfterConnect env ci.
Proof.
  unfold withConnectorName, nameAfterConnect.
  destruct (ci_name ci) as [n|]; [destruct (truthyStr (Some n))|]; repeat split.
Qed.

Lemma applyConnectorMetadata_spec ci s :
  applyConnectorMetadata ci s =
    (Ok tt, mkWState (st_evmAddressMap s) (st_sdkReady s) (st_connecting s)
              (st_trace s ++ connectorMetadataEvents ci)).
Proof.
  unfold applyConnectorMetadata, connectorMetadataEvents.
  destruct (_ || _); [reflexivity|]. unfold ret. by rewrite app_nil_r; destruct s.
Qed.

Lemma deriveAlgorandAccounts_names env evms ci s accs s' :
  deriveAlgorandAccounts env evms ci s = (Ok accs, s') ->
  Forall2 (fun e a => acc_name a = (env_walletName env ++ " " ++ e)%string) evms accs.
Proof.
  unfold deriveAlgorandAccounts. intros H.
  apply bind_ok_inv in H as ([] & s1 & _ & H).
  destruct (deriveLoop_spec _ _ _ _ _ _ _ H) as (new & -> & Hf & _).
  eapply Forall2_impl; [exact Hf|]. by intros ? ? (_ & ? & _).
Qed.

(** X9: The re-entrancy guard of [RainbowKitWallet.connect]: while a connect is
    in progress, a second call returns [[]] and changes nothing (no request,
    no store update); otherwise the in-progress flag is cleared when the call
    ends, whether it succeeded or threw. *)
Theorem rainbowKitConnect_connecting_flag (env : Env) (evmAddresses : list string)
    (ci : ConnectorInfo) (st : WState) :
  let '(r, st') := rainbowKitConnect env evmAddresses ci st in
  if st_connecting st then r = Ok [] /\ st' = st
  else st_connecting st' = false.
Proof.
  unfold rainbowKitConnect, getConnecting, bind at 1.
  destruct (st_connecting st); [done|].
  unfold bind at 1, setConnecting, tryFinally.
  match goal with |- context [match ?b ?s with _ => _ end] =>
    destruct (b s) as [r s'] end.
  done.
Qed.

(** X10: [RainbowKitWallet.connect] with no connected EVM address: after the
    connector metadata is applied, an empty wallet (no accounts, no active
    account) is added to the store, then reading [activeAccount.address]
    throws a [TypeError]; the in-progress flag is cleared. *)
Theorem rainbowKitConnect_no_addresses (env : Env) (ci : ConnectorInfo) (st : WState) :
  sdkAvailable env st ->
  st_connecting st = false ->
  let '(r, st') := rainbowKitConnect env [] ci st in
  r = Throw typeErrorAddress /\
  st_trace st' = st_trace st ++ connectorMetadataEvents ci ++
                   [EvAddWallet (mkWalletState [] None)] /\
  st_connecting st' = false.
Proof.
  intros Hs Hc.
  set (s1 := mkWState (st_evmAddressMap st) (st_sdkReady st) true (st_trace st)).
  assert (Hs1 : sdkAvailable env s1) by exact Hs.
  unfold rainbowKitConnect, getConnecting, bind at 1. rewrite Hc.
  unfold bind at 1, setConnecting, tryFinally. fold s1.
  unfold bind at 1. rewrite (initializeEvmSdk_ready _ _ Hs1).
  unfold bind at 1. rewrite applyConnectorMetadata_spec.
  cbn -[withConnectorName connectorMetadataEvents].
  split; [done|]. split; [|done]. by rewrite <- app_assoc.
Qed.

Lemma rainbowKitConnect_no_addresses_witness :
  (let '(r, st') := rainbowKitConnect Demo.env [] (mkConnectorInfo (Some "Rainbow") None)
                      Demo.stateEmpty in
   r = Throw typeErrorAddress /\
   st_trace st' = st_trace Demo.stateEmpty ++
                    connectorMetadataEvents (mkConnectorInfo (Some "Rainbow") None) ++
                    [EvAddWallet (mkWalletState [] None)] /\
   st_connecting st' = false).
Proof.
  exact (rainbowKitConnect_no_addresses Demo.env (mkConnectorInfo (Some "Rainbow") None)
           Demo.stateEmpty (or_introl eq_refl) eq_refl).
Defined.

(** X11: A successful [RainbowKitWallet.connect]: the connector metadata is
    applied first, so the accounts, the derived Algorand addresses in input
    order, are named after the connector when it has a non-empty name;
    after one [getAddress] request per EVM address, the wallet is added to
    the store with the first account active, and [notifyConnect] (which
    runs the [onConnect] hook when one is set) is called with the first EVM
    address and the first Algorand address; the in-progress flag is
    cleared. *)
Theorem rainbowKitConnect_success (env : Env) (evm0 : string) (evms : list string)
    (alg0 : string) (algs : list string) (ci : ConnectorInfo) (st : WState) :
  sdkAvailable env st ->
  st_connecting st = false ->
  map (env_getAddress env) (evm0 :: evms) = map Ok (alg0 :: algs) ->
  let '(r, st') := rainbowKitConnect env (evm0 :: evms) ci st in
  exists acc0 accs,
    r = Ok (acc0 :: accs) /\ map acc_address (acc0 :: accs) = alg0 :: algs /\
    Forall2 (fun e a => acc_name a = (nameAfterConnect env ci ++ " " ++ e)%string)
      (evm0 :: evms) (acc0 :: accs) /\
    st_trace st' = st_trace st ++ connectorMetadataEvents ci ++ map EvGetAddress (evm0 :: evms) ++
      [EvAddWallet (mkWalletState (acc0 :: accs) (Some acc0)); EvNotifyConnect evm0 alg0] /\
    st_connecting st' = false.
Proof.
  intros Hs Hc Ha.
  destruct (withConnectorName_fields env ci) as (_ & _ & Hg & Hn).
  set (s1 := mkWState (st_evmAddressMap st) (st_sdkReady st) true (st_trace st)).
  assert (Hs1 : sdkAvailable env s1) by exact Hs.
  unfold rainbowKitConnect, getConnecting, bind at 1. rewrite Hc.
  unfold bind at 1, setConnecting, tryFinally. fold s1.
  unfold bind at 1. rewrite (initializeEvmSdk_ready _ _ Hs1).
  unfold bind at 1. rewrite applyConnectorMetadata_spec.
  unfold bind at 1.
  match goal with |- context [deriveAlgorandAccounts _ _ _ ?s] => set (s2 := s) end.
  assert (Ha' : map (env_getAddress (withConnectorName env ci)) (evm0 :: evms) =
                map Ok (alg0 :: algs)) by (rewrite Hg; exact Ha).
  destruct (deriveAlgorandAccounts_ok (withConnectorName env ci) (evm0 :: evms) (alg0 :: algs)
              (Some ci) s2 (or_introl eq_refl) Ha') as (accs & s' & Hd & Hm & _ & Hc' & Ht & _).
  pose proof (deriveAlgorandAccounts_names _ _ _ _ _ _ Hd) as Hnames. rewrite Hn in Hnames.
  rewrite Hd.
  destruct accs as [|acc0 accs]; [discriminate|].
  injection Hm as Ha0 Hm. cbn.
  exists acc0, accs. rewrite Ha0. split; [done|]. split; [by f_equal|].
  split; [exact Hnames|].
  split; [|done]. rewrite Ht. cbn. rewrite <- !app_assoc. done.
Qed.

Lemma rainbowKitConnect_success_witness :
  (let '(r, st') := rainbowKitConnect Demo.env ("0xA" :: ["0xB"])
                      (mkConnectorInfo (Some "Rainbow") None) Demo.stateEmpty in
   exists acc0 accs,
     r = Ok (acc0 :: accs) /\ map acc_address (acc0 :: accs) = "ALGO_0xA" :: ["ALGO_0xB"] /\
     Forall2 (fun e a => acc_name a =
                (nameAfterConnect Demo.env (mkConnectorInfo (Some "Rainbow") None) ++ " " ++ e)%string)
       ("0xA" :: ["0xB"]) (acc0 :: accs) /\
     st_trace st' = st_trace Demo.stateEmpty ++
       connectorMetadataEvents (mkConnectorInfo (Some "Rainbow") None) ++
       map EvGetAddress ("0xA" :: ["0xB"]) ++
       [EvAddWallet (mkWalletState (acc0 :: accs) (Some acc0)); EvNotifyConnect "0xA" "ALGO_0xA"] /\
     st_connecting st' = false).
Proof.
  exact (rainbowKitConnect_success Demo.env "0xA" ["0xB"] "ALGO_0xA" ["ALGO_0xB"]
           (mkConnectorInfo (Some "Rainbow") None) Demo.stateEmpty
           (or_introl eq_refl) eq_refl eq_refl).
Defined.

Lemma metaMaskDeriveLoop_spec env i evms acc s accs s' :
  metaMaskDeriveLoop env i evms acc s = (Ok accs, s') ->
  exists new, accs = acc ++ new /\
    Forall2 (fun e a => env_getAddress env e = Ok (acc_address a)) evms new /\
    (forall j a, new !! j = Some a ->
       acc_name a = (env_walletName env ++ " Account " ++ pretty (S (i + j)))%string /\
       acc_metadata a = None) /\
    st_trace s' = st_trace s ++ map EvGetAddress evms.
Proof.
  revert i acc s; induction evms as [|e rest IH]; intros i acc s H; cbn in H.
  - injection H as <- <-. exists []. rewrite app_nil_r. cbn.
    split; [done|]. split; [constructor|]. split; [done|]. by rewrite app_nil_r.
  - destruct (env_getAddress env e) as [alg|err] eqn:Hg; cbn in H; [|discriminate].
    destruct (IH _ _ _ H) as (new & -> & Hf & Hn & Htr).
    exists (mkAccount (env_walletName env ++ " Account " ++ pretty (S i)) alg None :: new).
    split; [by rewrite <- app_assoc|].
    split; [constructor; [done | exact Hf]|].
    split.
    + intros [|j] a Hj; cbn in Hj.
      * injection Hj as <-. cbn. by rewrite Nat.add_0_r.
      * destruct (Hn j a Hj) as [Hname Hmd]. split; [|done].
        rewrite Hname. do 3 f_equal. lia.
    + rewrite Htr. cbn. by rewrite <- app_assoc.
Qed.

(** X12: A successful [MetaMaskWallet.connect]: account [i] (from 0) has the
    Algorand address derived from the [i]-th EVM address, is named
    "<wallet name> Account <i+1>" and has no metadata; after one
    [getAddress] request per EVM address the wallet is added to the store
    with the first account active. *)
Theorem metaMaskConnect_accounts_named (env : Env) (evmAddresses : list string)
    (st st' : WState) (accs : list WalletAccount) :
  metaMaskConnect env evmAddresses st = (Ok accs, st') ->
  Forall2 (fun e a => env_getAddress env e = Ok (acc_address a)) evmAddresses accs /\
  (forall i a, accs !! i = Some a ->
     acc_name a = (env_walletName env ++ " Account " ++ pretty (S i))%string /\
     acc_metadata a = None) /\
  exists acc0 rest, accs = acc0 :: rest /\
    st_trace st' = st_trace st ++ map EvGetAddress evmAddresses ++
                     [EvAddWallet (mkWalletState accs (Some acc0))].
Proof.
  unfold metaMaskConnect, metaMaskDeriveAlgorandAccounts, bind.
  destruct (initializeEvmSdk env st) as [[[]|e] s0] eqn:Hi0; [|discriminate].
  destruct (initializeEvmSdk_ok _ _ _ Hi0) as (_ & _ & Ht0 & _).
  destruct evmAddresses as [|e0 rest]; [discriminate|].
  destruct (initializeEvmSdk env s0) as [[[]|e] s1] eqn:Hi1; [|discriminate].
  destruct (initializeEvmSdk_ok _ _ _ Hi1) as (_ & _ & Ht1 & _).
  destruct (metaMaskDeriveLoop env 0 (e0 :: rest) [] s1) as [[wa|e] s2] eqn:Hd;
    cbn; [|discriminate].
  intros H. injection H as <- <-.
  destruct (metaMaskDeriveLoop_spec _ _ _ _ _ _ _ Hd) as (new & -> & Hf & Hn & Htr).
  cbn [app] in *. split; [exact Hf|]. split; [exact Hn|].
  inversion Hf as [|? acc0 ? rest' _ _]; subst.
  exists acc0, rest'. split; [done|]. cbn. rewrite Htr, Ht1, Ht0. cbn.
  by rewrite <- app_assoc.
Qed.

Lemma metaMaskConnect_accounts_named_witness :
  metaMaskConnect Demo.env ["0xA"; "0xB"] Demo.stateEmpty =
    (Ok [mkAccount "EVM Wallet Account 1" "ALGO_0xA" None;
         mkAccount "EVM Wallet Account 2" "ALGO_0xB" None],
     mkWState (<["ALGO_0xB" := "0xB"]> (<["ALGO_0xA" := "0xA"]> ∅)) true false
       [EvGetAddress "0xA"; EvGetAddress "0xB";
        EvAddWallet (mkWalletState [mkAccount "EVM Wallet Account 1" "ALGO_0xA" None;
                                    mkAccount "EVM Wallet Account 2" "ALGO_0xB" None]
                       (Some (mkAccount "EVM Wallet Account 1" "ALGO_0xA" None)))]) /\
  acc_name (mkAccount "EVM Wallet Account 2" "ALGO_0xB" None) =
    (env_walletName Demo.env ++ " Account " ++ pretty (S 1))%string.
Proof.
  assert (H : metaMaskConnect Demo.env ["0xA"; "0xB"] Demo.stateEmpty =
    (Ok [mkAccount "EVM Wallet Account 1" "ALGO_0xA" None;
         mkAccount "EVM Wallet Account 2" "ALGO_0xB" None],
     mkWState (<["ALGO_0xB" := "0xB"]> (<["ALGO_0xA" := "0xA"]> ∅)) true false
       [EvGetAddress "0xA"; EvGetAddress "0xB";
        EvAddWallet (mkWalletState [mkAccount "EVM Wallet Account 1" "ALGO_0xA" None;
                                    mkAccount "EVM Wallet Account 2" "ALGO_0xB" None]
                       (Some (mkAccount "EVM Wallet Account 1" "ALGO_0xA" None)))]))
    by (vm_compute; reflexivity).
  split; [exact H|].
  exact (proj1 (proj1 (proj2 (metaMaskConnect_accounts_named _ _ _ _ _ H)) 1 _ eq_refl)).
Defined.

(** X13: [MetaMaskWallet.connect] when [eth_requestAccounts] answers no account:
    it throws "No accounts found!" before any derivation, and adds no
    wallet to the store (no request is issued). *)
Theorem metaMaskConnect_no_accounts (env : Env) (st : WState) :
  sdkAvailable env st ->
  metaMaskConnect env [] st = (Throw noAccountsError, readyState st).
Proof.
  intros Hs. unfold metaMaskConnect, bind. by rewrite (initializeEvmSdk_ready _ _ Hs).
Qed.

Lemma metaMaskConnect_no_accounts_witness :
  metaMaskConnect Demo.env [] Demo.stateEmpty =
    (Throw noAccountsError, readyState Demo.stateEmpty).
Proof. exact (metaMaskConnect_no_accounts Demo.env Demo.stateEmpty (or_introl eq_refl)). Defined.

(* ------------------------------------------------------------------ *)
(** ** Further properties: MetaMaskWallet.signTransactions *)

(** X14: [MetaMaskWallet.signTransactions] reads the EVM address from the map
    alone: when the map has no non-empty entry for the sender of the first
    eligible transaction, it throws "No EVM address found", whatever the
    persisted accounts hold, with no request issued and the map unchanged. *)
Theorem metaMaskSignTransactions_no_fallback (env : Env) (txnGroup : TxnGroupArg)
    (F : option (list nat)) (st : WState) (entries : list (Transaction * bool))
    (firstTxn : Transaction) (rest : list Transaction) :
  sdkAvailable env st ->
  normalizeEntries txnGroup = Ok entries ->
  eligibleEntries F (env_addresses env) entries = firstTxn :: rest ->
  truthyStr (st_evmAddressMap st !! sender firstTxn) = false ->
  metaMaskSignTransactions env txnGroup F st =
    (Throw (noEvmAddressError (sender firstTxn)), readyState st).
Proof. exact (metaMaskSignTransactions_unmapped env txnGroup F st entries firstTxn rest). Qed.

Lemma metaMaskSignTransactions_no_fallback_witness :
  sdkAvailable Demo.envPersisted Demo.stateEmpty /\
  metaMaskSignTransactions Demo.envPersisted (GroupTxns (Flat [Demo.txA0])) None
    Demo.stateEmpty =
    (Throw (noEvmAddressError (sender Demo.txA0)), readyState Demo.stateEmpty).
Proof.
  split; [left; reflexivity|].
  exact (metaMaskSignTransactions_no_fallback Demo.envPersisted (GroupTxns (Flat [Demo.txA0]))
           None Demo.stateEmpty [(Demo.txA0, false)] Demo.txA0 []
           (or_introl eq_refl) eq_refl (eq_refl : eligibleEntries None
              (env_addresses Demo.envPersisted) [(Demo.txA0, false)] = [Demo.txA0]) eq_refl).
Defined.


Lemma TraceOnly_getMap P : TraceOnly P getMap.
Proof. intros s. by apply extendsWith_refl. Qed.

(** X15: [MetaMaskWallet.signTransactions] issues no request other than calls
    of the SDK's [signTxn]: no sign hooks, no chain check or switch. *)
Theorem metaMaskSignTransactions_only_signs (env : Env) (txnGroup : TxnGroupArg)
    (F : option (list nat)) :
  TraceOnly isSignCall (metaMaskSignTransactions env txnGroup F).
Proof.
  unfold metaMaskSignTransactions. apply TraceOnly_tryCatch.
  - apply TraceOnly_bind; [intros s; unfold initializeEvmSdk, setSdkReady;
      destruct (st_sdkReady s); [|destruct (env_sdkInit env)]; by apply extendsWith_refl|].
    intros _. apply TraceOnly_bind; [apply TraceOnly_liftR|]. intros flat.
    apply TraceOnly_bind; [apply TraceOnly_liftR|]. intros [|t ts]; [apply TraceOnly_ret|].
    apply TraceOnly_bind; [apply TraceOnly_getMap|]. intros m.
    destruct (m !! sender t) as [evm|]; [|apply TraceOnly_throw].
    destruct (truthyStr (Some evm)); [|apply TraceOnly_throw].
    unfold callSignTxn. apply TraceOnly_bind; [|intros; apply TraceOnly_ret].
    apply TraceOnly_bind; [apply TraceOnly_emit; exact I|]. intros. apply TraceOnly_liftR.
  - intros e. destruct (errorMessage e); apply TraceOnly_throw.
Qed.

(* ------------------------------------------------------------------ *)
(** ** Further properties: MetaMaskWallet.bytesToHex and signWithMetaMask *)

Lemma byteHex_spec (b : Byte.byte) :
  match padStart (numberToString16 (Byte.to_N b)) 2 "0"%char with
  | String hi (String lo EmptyString) => hexPair hi lo = Some b
  | _ => False
  end.
Proof. destruct b; vm_compute; reflexivity. Qed.

Lemma string_concat_empty_cons (x : string) (xs : list string) :
  String.concat EmptyString (x :: xs) = String.append x (String.concat EmptyString xs).
Proof.
  destruct xs as [|y ys]; [|reflexivity].
  change (x = String.append x EmptyString).
  induction x as [|c x IH]; [reflexivity|]. exact (f_equal (String c) IH).
Qed.

Lemma append_two (c0 c1 : ascii) (s : string) :
  String.append (String c0 (String c1 EmptyString)) s = String c0 (String c1 s).
Proof. reflexivity. Qed.

Lemma hexPairsToBytes_concat (bs : list Byte.byte) :
  hexPairsToBytes (String.concat EmptyString
     (map (fun b => padStart (numberToString16 (Byte.to_N b)) 2 "0"%char) bs)) = Some bs /\
  String.length (String.concat EmptyString
     (map (fun b => padStart (numberToString16 (Byte.to_N b)) 2 "0"%char) bs)) = 2 * length bs.
Proof.
  induction bs as [|b bs [IH IHl]]; [done|].
  cbn [map]. rewrite string_concat_empty_cons.
  pose proof (byteHex_spec b) as Hb.
  destruct (padStart (numberToString16 (Byte.to_N b)) 2 "0"%char)
    as [|hi [|lo [|? ?]]]; try contradiction.
  rewrite append_two. cbn [hexPairsToBytes String.length length].
  rewrite Hb, IH, IHl. split; [done | lia].
Qed.

(** X16: [bytesToHex] writes every byte as exactly two hex digits (zero-padded),
    after the ["0x"] prefix. *)
Theorem bytesToHex_length (bytes : list Byte.byte) :
  String.length (bytesToHex bytes) = 2 + 2 * length bytes.
Proof.
  unfold bytesToHex. rewrite append_two. cbn [String.length].
  rewrite (proj2 (hexPairsToBytes_concat bytes)). lia.
Qed.

(** X17: [bytesToHex] loses nothing: reading its output back two hex digits at
    a time, after the ["0x"] prefix, gives the original bytes; in
    particular distinct messages are sent to [personal_sign] as distinct
    strings. *)
Theorem bytesToHex_roundtrip (bytes : list Byte.byte) :
  hexToBytes (bytesToHex bytes) = Some bytes.
Proof.
  unfold bytesToHex. rewrite append_two. cbn [hexToBytes Ascii.eqb Bool.eqb andb].
  apply hexPairsToBytes_concat.
Qed.

(** X18: [signWithMetaMask] issues one [personal_sign] request, with the hex
    encoding of the message and the EVM address; when the provider rejects
    it with an error object, a rejection with code 4001 becomes the error
    "User rejected the signing request" and any other is rethrown as it
    is. *)
Theorem signWithMetaMask_rejection (personalSign : string -> string -> Result string)
    (message : list Byte.byte) (evmAddress : string) (st : WState)
    (name : string) (msg : option string) (code : option Z) :
  personalSign (bytesToHex message) evmAddress = Throw (JsErrorObj name msg code) ->
  let '(r, st') := signWithMetaMask None personalSign message evmAddress st in
  r = Throw (if decide (code = Some 4001%Z) then userRejectedSigning
             else JsErrorObj name msg code) /\
  st_trace st' = st_trace st ++ [EvPersonalSign (bytesToHex message) evmAddress].
Proof.
  intros H. unfold signWithMetaMask, bind, ret, emit. cbn. rewrite H. cbn.
  destruct code as [c|].
  - destruct (Z.eqb_spec c 4001) as [->|Hne].
    + rewrite decide_True by done. done.
    + rewrite decide_False by congruence. done.
  - rewrite decide_False by discriminate. done.
Qed.

Lemma signWithMetaMask_rejection_witness :
  (let '(r, st') := signWithMetaMask None
        (fun _ _ => Throw (JsErrorObj "Error" (Some "User denied message signature.") (Some 4001%Z)))
        [Byte.x68; Byte.x69] "0xA" Demo.stateEmpty in
   r = Throw (if decide (Some 4001%Z = Some 4001%Z) then userRejectedSigning
              else JsErrorObj "Error" (Some "User denied message signature.") (Some 4001%Z)) /\
   st_trace st' = st_trace Demo.stateEmpty ++
                    [EvPersonalSign (bytesToHex [Byte.x68; Byte.x69]) "0xA"]).
Proof.
  exact (signWithMetaMask_rejection
           (fun _ _ => Throw (JsErrorObj "Error" (Some "User denied message signature.") (Some 4001%Z)))
           [Byte.x68; Byte.x69] "0xA" Demo.stateEmpty "Error"
           (Some "User denied message signature.") (Some 4001%Z) eq_refl).
Defined.

(* ------------------------------------------------------------------ *)
(** ** Further properties: RainbowKitWallet.ensureChainRegistered *)

(** X19: [ensureChainRegistered] leaves the configured chains in place and adds
    at most the Algorand chain at the end, after which a chain with the
    Algorand id is configured; a second call changes nothing. *)
Theorem ensureChainRegistered_spec (ALGORAND_CHAIN_ID : N) (algorandChain : Chain)
    (chains : list Chain) :
  chain_id algorandChain = ALGORAND_CHAIN_ID ->
  let chains' := ensureChainRegistered ALGORAND_CHAIN_ID algorandChain chains in
  (exists c, c ∈ chains' /\ chain_id c = ALGORAND_CHAIN_ID) /\
  (chains' = chains \/ chains' = chains ++ [algorandChain]) /\
  ensureChainRegistered ALGORAND_CHAIN_ID algorandChain chains' = chains'.
Proof.
  intros Hid. cbv zeta. unfold ensureChainRegistered.
  destruct (existsb (fun c => N.eqb (chain_id c) ALGORAND_CHAIN_ID) chains) eqn:E.
  - rewrite E. apply existsb_exists in E as (c & Hc & Heq).
    apply N.eqb_eq in Heq. split; [|by split; [left|]].
    exists c. split; [by apply list_elem_of_In | done].
  - assert (Hex : existsb (fun c => N.eqb (chain_id c) ALGORAND_CHAIN_ID)
                    (chains ++ [algorandChain]) = true).
    { rewrite existsb_app. cbn. rewrite Hid, N.eqb_refl. by rewrite orb_true_r. }
    rewrite Hex. split; [|by split; [right|]].
    exists algorandChain. split; [|done]. apply elem_of_app. right. by left.
Qed.

Lemma ensureChainRegistered_spec_witness :
  (let chains' := ensureChainRegistered 4160%N (mkChain 4160%N) [mkChain 1%N; mkChain 8453%N] in
   (exists c, c ∈ chains' /\ chain_id c = 4160%N) /\
   (chains' = [mkChain 1%N; mkChain 8453%N] \/
    chains' = [mkChain 1%N; mkChain 8453%N] ++ [mkChain 4160%N]) /\
   ensureChainRegistered 4160%N (mkChain 4160%N) chains' = chains').
Proof.
  exact (ensureChainRegistered_spec 4160%N (mkChain 4160%N) [mkChain 1%N; mkChain 8453%N] eq_refl).
Defined.

(* ------------------------------------------------------------------ *)
(** ** Further properties: session resume *)

Lemma resumeWithAccounts_ok env ws evms algs ci s :
  env_walletState env = Some ws ->
  sdkAvailable env s ->
  map (env_getAddress env) evms = map Ok algs ->
  exists accs s', resumeWithAccounts env evms ci s = (Ok tt, s') /\
    map acc_address accs = algs /\
    Forall2 (fun e a => acc_metadata a = Some (accountMetadata e ci)) evms accs /\
    exists evs, st_trace s' = st_trace s ++ evs ++ [EvSetAccounts accs].
Proof.
  intros Hws Hs Ha. unfold resumeWithAccounts. rewrite Hws.
  set (s1 := mkWState (rebuildEvmAddressMap (ws_accounts ws) (st_evmAddressMap s))
                      (st_sdkReady s) (st_connecting s) (st_trace s)).
  destruct (deriveAlgorandAccounts_ok env evms algs ci s1 Hs Ha)
    as (accs & s2 & Hd & Hm & _ & _ & Ht & Hf).
  exists accs.
  unfold bind at 1, modifyMap. fold s1. unfold bind at 1. rewrite Hd.
  unfold bind. destruct (compareAccounts accs (ws_accounts ws)); cbn.
  - eexists. split; [reflexivity|]. split; [done|]. split; [done|].
    exists (map EvGetAddress evms). rewrite Ht. subst s1. cbn. by rewrite <- app_assoc.
  - eexists. split; [reflexivity|]. split; [done|]. split; [done|].
    exists (map EvGetAddress evms ++ [EvSessionMismatch]). cbn.
    rewrite Ht. subst s1. cbn. by rewrite <- !app_assoc.
Qed.

(** X20: [RainbowKitWallet.resumeSession] when wagmi reports no live connection
    and no persisted account records an EVM address: [onDisconnect] is
    called and nothing else happens (no derivation, the map untouched). *)
Theorem rainbowKitResumeSession_no_persisted (env : Env) (account : WagmiAccount)
    (ws : WalletState) (st : WState) :
  env_walletState env = Some ws ->
  sdkAvailable env st ->
  wa_isConnected account && truthyStr (wa_address account) = false ->
  persistedEvmAddresses (ws_accounts ws) = [] ->
  rainbowKitResumeSession env account st =
    (Ok tt, mkWState (st_evmAddressMap st) true (st_connecting st)
              (st_trace st ++ [EvOnDisconnect])).
Proof.
  intros Hws Hs Hlive Hp. unfold rainbowKitResumeSession. rewrite Hws. cbv zeta.
  unfold bind at 1. rewrite (initializeEvmSdk_ready _ _ Hs).
  destruct (wa_address account) as [a|]; [rewrite Hlive|]; rewrite Hp; reflexivity.
Qed.

Lemma rainbowKitResumeSession_no_persisted_witness :
  rainbowKitResumeSession
    (mkEnv ["ALGO_0xA"] (Some (mkWalletState [mkAccount "A" "ALGO_0xA" None] None))
       "EVM Wallet" None Demo.getAddress Demo.signTxn None None None None Demo.provider "0x1040")
    (mkWagmiAccount false (Some "0xA") None None) Demo.stateEmpty =
  (Ok tt, mkWState (st_evmAddressMap Demo.stateEmpty) true (st_connecting Demo.stateEmpty)
            (st_trace Demo.stateEmpty ++ [EvOnDisconnect])).
Proof.
  exact (rainbowKitResumeSession_no_persisted
    (mkEnv ["ALGO_0xA"] (Some (mkWalletState [mkAccount "A" "ALGO_0xA" None] None))
       "EVM Wallet" None Demo.getAddress Demo.signTxn None None None None Demo.provider "0x1040")
    (mkWagmiAccount false (Some "0xA") None None)
    (mkWalletState [mkAccount "A" "ALGO_0xA" None] None) Demo.stateEmpty
    eq_refl (or_introl eq_refl) eq_refl eq_refl).
Defined.

(** X21: [RainbowKitWallet.resumeSession] when wagmi reports no live connection
    but persisted accounts record EVM addresses: the accounts are derived
    again from those addresses, in order, and all of them take the connector
    name and icon persisted on the first account (when non-empty), which
    are also applied to the wallet's metadata; the store receives the
    derived accounts last. *)
Theorem rainbowKitResumeSession_from_persisted (env : Env) (account : WagmiAccount)
    (ws : WalletState) (st : WState) (algs : list string) :
  env_walletState env = Some ws ->
  sdkAvailable env st ->
  wa_isConnected account && truthyStr (wa_address account) = false ->
  persistedEvmAddresses (ws_accounts ws) <> [] ->
  map (env_getAddress env) (persistedEvmAddresses (ws_accounts ws)) = map Ok algs ->
  let name := persistedConnectorName (ws_accounts ws) in
  let icon := persistedConnectorIcon (ws_accounts ws) in
  exists accs st', rainbowKitResumeSession env account st = (Ok tt, st') /\
    map acc_address accs = algs /\
    Forall2 (fun e a => acc_metadata a = Some (mkMetadata (Some e) name icon))
      (persistedEvmAddresses (ws_accounts ws)) accs /\
    exists evs, st_trace st' =
      st_trace st ++ (if truthyStr name || truthyStr icon
                      then [EvUpdateMetadata name icon] else []) ++
      evs ++ [EvSetAccounts accs].
Proof.
  intros Hws Hs Hlive Hp Ha. cbv zeta.
  set (pe := persistedEvmAddresses (ws_accounts ws)) in *.
  assert (Hci : withPersistedConnectorInfo (ws_accounts ws) noConnectorInfo =
                mkConnectorInfo (persistedConnectorName (ws_accounts ws))
                                (persistedConnectorIcon (ws_accounts ws))).
  { destruct (ws_accounts ws) as [|first rest] eqn:Ea.
    - exfalso. apply Hp. subst pe. try rewrite Ea. reflexivity.
    - unfold withPersistedConnectorInfo, persistedConnectorName, persistedConnectorIcon.
      cbn. destruct (acc_metadata first) as [md|]; reflexivity. }
  set (ci' := withPersistedConnectorInfo (ws_accounts ws) noConnectorInfo) in *.
  set (s1 := readyState st).
  assert (Happ : exists s2, applyConnectorMetadata ci' s1 = (Ok tt, s2) /\
            sdkAvailable env s2 /\
            st_trace s2 = st_trace st ++
              (if truthyStr (persistedConnectorName (ws_accounts ws)) ||
                  truthyStr (persistedConnectorIcon (ws_accounts ws))
               then [EvUpdateMetadata (persistedConnectorName (ws_accounts ws))
                                      (persistedConnectorIcon (ws_accounts ws))] else [])).
  { assert (En : (if truthyStr (persistedConnectorName (ws_accounts ws))
                  then persistedConnectorName (ws_accounts ws) else None) =
                 persistedConnectorName (ws_accounts ws)).
    { unfold persistedConnectorName. destruct (ws_accounts ws) as [|f r]; [done|].
      destruct (acc_metadata f) as [md|]; [|done].
      destruct (truthyStr (md_connectorName md)) eqn:E; cbn; [by rewrite E | done]. }
    assert (Ei : (if truthyStr (persistedConnectorIcon (ws_accounts ws))
                  then persistedConnectorIcon (ws_accounts ws) else None) =
                 persistedConnectorIcon (ws_accounts ws)).
    { unfold persistedConnectorIcon. destruct (ws_accounts ws) as [|f r]; [done|].
      destruct (acc_metadata f) as [md|]; [|done].
      destruct (truthyStr (md_connectorIcon md)) eqn:E; cbn; [by rewrite E | done]. }
    unfold applyConnectorMetadata. rewrite Hci. cbv zeta. cbn [ci_name ci_icon].
    rewrite En, Ei.
    destruct (truthyStr _ || truthyStr _); eexists; (split; [reflexivity|]);
      (split; [left; reflexivity|]); cbn; [done | by rewrite app_nil_r]. }
  destruct Happ as (s2 & Happ & Hs2 & Ht2).
  destruct (withConnectorName_fields env ci') as (Hw & Hsi & Hg & _).
  assert (Hws' : env_walletState (withConnectorName env ci') = Some ws) by (rewrite Hw; exact Hws).
  assert (Hs2' : sdkAvailable (withConnectorName env ci') s2)
    by (unfold sdkAvailable; rewrite Hsi; exact Hs2).
  assert (Ha' : map (env_getAddress (withConnectorName env ci')) pe = map Ok algs)
    by (rewrite Hg; exact Ha).
  destruct (resumeWithAccounts_ok (withConnectorName env ci') ws pe algs (Some ci') s2
              Hws' Hs2' Ha')
    as (accs & s3 & Hr & Hm & Hf & evs & Ht3).
  exists accs, s3. split.
  - unfold rainbowKitResumeSession. rewrite Hws. cbv zeta.
    unfold bind at 1. rewrite (initializeEvmSdk_ready _ _ Hs). fold s1.
    destruct (wa_address account) as [a|]; [rewrite Hlive|]; fold pe;
      (destruct pe as [|e es]; [by destruct Hp|]);
      unfold bind; fold ci'; rewrite Happ; exact Hr.
  - split; [done|]. split.
    + eapply Forall2_impl; [exact Hf|]. intros e a ->. f_equal.
      unfold accountMetadata. fold ci'. rewrite Hci. cbn.
      f_equal; [destruct (ws_accounts ws) as [|f r]; [done|] .. ].
      * unfold persistedConnectorName. destruct (acc_metadata f) as [md|]; [|done].
        destruct (truthyStr (md_connectorName md)) eqn:E; cbn; [by rewrite E | done].
      * unfold persistedConnectorIcon. destruct (acc_metadata f) as [md|]; [|done].
        destruct (truthyStr (md_connectorIcon md)) eqn:E; cbn; [by rewrite E | done].
    + exists evs. rewrite Ht3, Ht2. by rewrite <- !app_assoc.
Qed.

Lemma rainbowKitResumeSession_from_persisted_witness :
  exists accs st',
    rainbowKitResumeSession Demo.envPersisted (mkWagmiAccount false None None None)
      Demo.stateEmpty = (Ok tt, st') /\
    map acc_address accs = ["ALGO_0xA"] /\
    Forall2 (fun e a => acc_metadata a =
               Some (mkMetadata (Some e) (persistedConnectorName (ws_accounts Demo.persisted))
                       (persistedConnectorIcon (ws_accounts Demo.persisted))))
      (persistedEvmAddresses (ws_accounts Demo.persisted)) accs /\
    exists evs, st_trace st' =
      st_trace Demo.stateEmpty ++
      (if truthyStr (persistedConnectorName (ws_accounts Demo.persisted)) ||
          truthyStr (persistedConnectorIcon (ws_accounts Demo.persisted))
       then [EvUpdateMetadata (persistedConnectorName (ws_accounts Demo.persisted))
                              (persistedConnectorIcon (ws_accounts Demo.persisted))] else []) ++
      evs ++ [EvSetAccounts accs].
Proof.
  apply (rainbowKitResumeSession_from_persisted Demo.envPersisted
           (mkWagmiAccount false None None None) Demo.persisted Demo.stateEmpty ["ALGO_0xA"]).
  - reflexivity.
  - left. reflexivity.
  - reflexivity.
  - vm_compute. discriminate.
  - reflexivity.
Defined.

Lemma resumeFailure_object (e : JsError) (s : WState) :
  e <> JsNullish ->
  resumeFailure e s =
    (Throw e, mkWState (st_evmAddressMap s) (st_sdkReady s) (st_connecting s)
                (st_trace s ++ [EvOnDisconnect])).
Proof. destruct e; [reflexivity | done]. Qed.

(** X22: [RainbowWallet.resumeSession] with a persisted session: when
    [initializeProvider], [getProvider] or the [eth_accounts] request throws
    an error object, or [eth_accounts] answers no account ("No accounts
    found!"), [onDisconnect] is called and that error is rethrown; the map
    is left as it was and no account is derived. *)
Theorem rainbowResumeSession_failure (env : Env) (initError providerError : option JsError)
    (ethAccounts : Result (list string)) (ws : WalletState) (st : WState) (e : JsError) :
  env_walletState env = Some ws ->
  sdkAvailable env st ->
  e <> JsNullish ->
  initError = Some e \/
  (initError = None /\ providerError = Some e) \/
  (initError = None /\ providerError = None /\ ethAccounts = Throw e) \/
  (initError = None /\ providerError = None /\ ethAccounts = Ok [] /\ e = noAccountsError) ->
  let '(r, st') := rainbowResumeSession env initError providerError ethAccounts st in
  r = Throw e /\ st_evmAddressMap st' = st_evmAddressMap st /\
  st_trace st' = st_trace st ++ [EvOnDisconnect].
Proof.
  intros Hws Hs He Hcase. unfold rainbowResumeSession, tryCatch. rewrite Hws.
  destruct Hcase as [->|[[-> ->]|[(-> & -> & ->)|(-> & -> & -> & ->)]]].
  - cbn. rewrite (resumeFailure_object _ _ He). done.
  - unfold bind at 1. cbn [ret]. unfold bind at 1.
    rewrite (initializeEvmSdk_ready _ _ Hs). cbn.
    rewrite (resumeFailure_object _ _ He). done.
  - unfold bind at 1. cbn [ret]. unfold bind at 1.
    rewrite (initializeEvmSdk_ready _ _ Hs). cbn.
    rewrite (resumeFailure_object _ _ He). done.
  - unfold bind at 1. cbn [ret]. unfold bind at 1.
    rewrite (initializeEvmSdk_ready _ _ Hs). cbn.
    done.
Qed.

Lemma rainbowResumeSession_failure_witness :
  (let '(r, st') := rainbowResumeSession Demo.envPersisted None None (Ok []) Demo.stateEmpty in
   r = Throw noAccountsError /\ st_evmAddressMap st' = st_evmAddressMap Demo.stateEmpty /\
   st_trace st' = st_trace Demo.stateEmpty ++ [EvOnDisconnect]).
Proof.
  apply (rainbowResumeSession_failure Demo.envPersisted None None (Ok []) Demo.persisted
           Demo.stateEmpty noAccountsError).
  - reflexivity.
  - left. reflexivity.
  - discriminate.
  - right. right. right. done.
Defined.

Lemma metaMaskDeriveLoop_ok env i evms algs acc s :
  map (env_getAddress env) evms = map Ok algs ->
  exists accs s', metaMaskDeriveLoop env i evms acc s = (Ok accs, s').
Proof.
  revert i algs acc s; induction evms as [|e rest IH]; intros i algs acc s H.
  - by exists acc, s.
  - destruct algs as [|alg algs]; [discriminate|]. injection H as He H.
    cbn. rewrite He. cbn. apply (IH _ algs). exact H.
Qed.

(** X23: [MetaMaskWallet.resumeSession] with a persisted session and accounts
    reported by [eth_accounts]: the accounts are derived again, and the
    store is updated only when their addresses differ, as a set, from the
    persisted ones; otherwise the persisted accounts are kept as they are. *)
Theorem metaMaskResumeSession_updates_on_mismatch (env : Env) (ws : WalletState)
    (st : WState) (evm0 : string) (evms : list string) (algs : list string) :
  env_walletState env = Some ws ->
  sdkAvailable env st ->
  map (env_getAddress env) (evm0 :: evms) = map Ok algs ->
  exists accs st',
    metaMaskResumeSession env None None (Ok (evm0 :: evms)) st = (Ok tt, st') /\
    map acc_address accs = algs /\
    st_trace st' = st_trace st ++ map EvGetAddress (evm0 :: evms) ++
      (if compareAccounts accs (ws_accounts ws) then []
       else [EvSessionMismatch; EvSetAccounts accs]).
Proof.
  intros Hws Hs Ha.
  destruct (metaMaskDeriveLoop_ok env 0 (evm0 :: evms) algs [] (readyState st) Ha)
    as (accs & s1 & Hd).
  destruct (metaMaskDeriveLoop_spec _ _ _ _ _ _ _ Hd) as (new & Hnew & Hf & _ & Ht).
  cbn [app] in Hnew. subst new.
  exists accs.
  unfold metaMaskResumeSession, tryCatch. rewrite Hws.
  unfold bind at 1. cbn [ret]. unfold bind at 1.
  rewrite (initializeEvmSdk_ready _ _ Hs). cbn [ret bind liftR].
  unfold metaMaskDeriveAlgorandAccounts, bind at 1.
  unfold bind at 1. rewrite (initializeEvmSdk_when_ready env (readyState st) eq_refl). rewrite Hd.
  destruct (compareAccounts accs (ws_accounts ws)); cbn.
  - eexists. split; [reflexivity|]. split.
    + eapply Forall2_getAddress_map; [exact Hf | exact Ha].
    + rewrite Ht. cbn. by rewrite app_nil_r.
  - eexists. split; [reflexivity|]. split.
    + eapply Forall2_getAddress_map; [exact Hf | exact Ha].
    + rewrite Ht. cbn. by rewrite <- !app_assoc.
Qed.

Lemma metaMaskResumeSession_updates_on_mismatch_witness :
  exists accs st',
    metaMaskResumeSession Demo.envPersisted None None (Ok ("0xB" :: [])) Demo.stateEmpty =
      (Ok tt, st') /\
    map acc_address accs = ["ALGO_0xB"] /\
    st_trace st' = st_trace Demo.stateEmpty ++ map EvGetAddress ("0xB" :: []) ++
      (if compareAccounts accs (ws_accounts Demo.persisted) then []
       else [EvSessionMismatch; EvSetAccounts accs]).
Proof.
  exact (metaMaskResumeSession_updates_on_mismatch Demo.envPersisted Demo.persisted
           Demo.stateEmpty "0xB" [] ["ALGO_0xB"] eq_refl (or_introl eq_refl) eq_refl).
Defined.

(* ------------------------------------------------------------------ *)
(** ** Further properties: Rainbow connect, wagmi accounts *)

(** X24: A successful [RainbowWallet.connect]: one account per EVM address, in
    order, each recording its EVM address and no connector name or icon;
    after one [getAddress] request per address, the wallet is added to the
    store with the first account active and [notifyConnect] is called with
    the first EVM address and its Algorand address. *)
Theorem rainbowConnect_success (env : Env) (evm0 : string) (evms : list string)
    (algs : list string) (st : WState) :
  sdkAvailable env st ->
  map (env_getAddress env) (evm0 :: evms) = map Ok algs ->
  exists accs st', rainbowConnect env None None (Ok (evm0 :: evms)) st = (Ok accs, st') /\
    map acc_address accs = algs /\
    Forall2 (fun e a => acc_metadata a = Some (mkMetadata (Some e) None None))
      (evm0 :: evms) accs /\
    exists acc0 rest, accs = acc0 :: rest /\
      st_trace st' = st_trace st ++ map EvGetAddress (evm0 :: evms) ++
        [EvAddWallet (mkWalletState accs (Some acc0)); EvNotifyConnect evm0 (acc_address acc0)].
Proof.
  intros Hs Ha.
  destruct (deriveAlgorandAccounts_ok env (evm0 :: evms) algs None (readyState st)
              (or_introl eq_refl) Ha) as (accs & s1 & Hd & Hm & _ & _ & Ht & Hf).
  destruct accs as [|acc0 rest].
  { inversion Hf. }
  exists (acc0 :: rest).
  unfold rainbowConnect, bind at 1. cbn [ret]. unfold bind at 1.
  rewrite (initializeEvmSdk_ready _ _ Hs). unfold bind at 1. cbn [ret].
  unfold tryCatch, bind at 1. cbn [liftR]. unfold bind at 1. rewrite Hd.
  cbn. eexists. split; [reflexivity|]. split; [done|]. split.
  - eapply Forall2_impl; [exact Hf|]. intros e a ->. reflexivity.
  - exists acc0, rest. split; [done|]. rewrite Ht. cbn. by rewrite <- !app_assoc.
Qed.

Lemma rainbowConnect_success_witness :
  exists accs st', rainbowConnect Demo.env None None (Ok ("0xA" :: ["0xB"])) Demo.stateEmpty =
      (Ok accs, st') /\
    map acc_address accs = ["ALGO_0xA"; "ALGO_0xB"] /\
    Forall2 (fun e a => acc_metadata a = Some (mkMetadata (Some e) None None))
      ("0xA" :: ["0xB"]) accs /\
    exists acc0 rest, accs = acc0 :: rest /\
      st_trace st' = st_trace Demo.stateEmpty ++ map EvGetAddress ("0xA" :: ["0xB"]) ++
        [EvAddWallet (mkWalletState accs (Some acc0)); EvNotifyConnect "0xA" (acc_address acc0)].
Proof.
  exact (rainbowConnect_success Demo.env "0xA" ["0xB"] ["ALGO_0xA"; "ALGO_0xB"] Demo.stateEmpty
           (or_introl eq_refl) eq_refl).
Defined.

(** X25: [RainbowWallet.connect] when [eth_requestAccounts] is rejected: no
    account is derived and no wallet is added; an error object is rethrown
    as it is, but a rejection with [undefined] surfaces as the [TypeError]
    of reading [error.message] in the [catch] block. *)
Theorem rainbowConnect_request_rejected (env : Env) (st : WState) (e : JsError) :
  sdkAvailable env st ->
  rainbowConnect env None None (Throw e) st =
    (Throw (match e with JsNullish => typeErrorMessage | _ => e end), readyState st).
Proof.
  intros Hs. unfold rainbowConnect, bind at 1. cbn [ret]. unfold bind at 1.
  rewrite (initializeEvmSdk_ready _ _ Hs). destruct e; reflexivity.
Qed.

Lemma rainbowConnect_request_rejected_witness :
  rainbowConnect Demo.env None None (Throw JsNullish) Demo.stateEmpty =
    (Throw typeErrorMessage, readyState Demo.stateEmpty).
Proof.
  exact (rainbowConnect_request_rejected Demo.env Demo.stateEmpty JsNullish (or_introl eq_refl)).
Defined.

(** X26: [getConnectedEvmAddresses] while wagmi reports a live connection: the
    live addresses and the live connector's name and icon are returned, even
    when the [getEvmAccounts] callback answered other addresses; no
    connection is attempted. *)
Theorem getConnectedEvmAddresses_live (getEvmAccounts : option (Result (list string)))
    (account : WagmiAccount) (hasConnector : bool) (wagmiConnect : Result (list string))
    (updatedAccount : WagmiAccount) (live : list string) (st : WState) :
  liveAddresses account = Some live ->
  (getEvmAccounts = None \/ exists addresses, getEvmAccounts = Some (Ok addresses)) ->
  getConnectedEvmAddresses getEvmAccounts account hasConnector wagmiConnect updatedAccount st =
    (Ok (live, extractConnectorInfo account), st).
Proof.
  intros Hl [->|[[|a addresses] ->]]; unfold getConnectedEvmAddresses, bind;
    cbn [ret liftR]; rewrite ?Hl; reflexivity.
Qed.

Lemma getConnectedEvmAddresses_live_witness :
  getConnectedEvmAddresses (Some (Ok ["0xC"]))
    (mkWagmiAccount true (Some "0xA") (Some ["0xA"; "0xB"])
       (Some (mkConnectorInfo (Some "MetaMask") None))) true (Ok ["0xD"])
    (mkWagmiAccount false None None None) Demo.stateEmpty =
  (Ok (["0xA"; "0xB"], extractConnectorInfo
         (mkWagmiAccount true (Some "0xA") (Some ["0xA"; "0xB"])
            (Some (mkConnectorInfo (Some "MetaMask") None)))), Demo.stateEmpty).
Proof.
  apply (getConnectedEvmAddresses_live (Some (Ok ["0xC"]))
           (mkWagmiAccount true (Some "0xA") (Some ["0xA"; "0xB"])
              (Some (mkConnectorInfo (Some "MetaMask") None))) true (Ok ["0xD"])
           (mkWagmiAccount false None None None) ["0xA"; "0xB"] Demo.stateEmpty).
  - reflexivity.
  - right. exists ["0xC"]. reflexivity.
Defined.

(** X27: [getConnectedEvmAddresses] with no live wagmi connection and no address
    from the callback: when there is no connector, or connecting with the
    first one throws an error object, the failure is swallowed and the
    "No EVM wallet connected" error is thrown instead. *)
Theorem getConnectedEvmAddresses_none (getEvmAccounts : option (Result (list string)))
    (account : WagmiAccount) (hasConnector : bool) (wagmiConnect : Result (list string))
    (updatedAccount : WagmiAccount) (st : WState) :
  liveAddresses account = None ->
  (getEvmAccounts = None \/ getEvmAccounts = Some (Ok [])) ->
  (hasConnector = false \/ exists name msg code, wagmiConnect = Throw (JsErrorObj name msg code)) ->
  fst (getConnectedEvmAddresses getEvmAccounts account hasConnector wagmiConnect
         updatedAccount st) = Throw noEvmWalletError.
Proof.
  intros Hl Hcb Hc.
  destruct Hcb as [->| ->]; unfold getConnectedEvmAddresses, bind;
    cbn [ret liftR]; rewrite Hl;
    (destruct Hc as [->|(name & msg & code & ->)]; [reflexivity|]);
    destruct hasConnector; reflexivity.
Qed.

Lemma getConnectedEvmAddresses_none_witness :
  fst (getConnectedEvmAddresses None (mkWagmiAccount false None None None) true
         (Throw (JsErrorObj "ConnectorNotFoundError" (Some "Connector not found.") None))
         (mkWagmiAccount false None None None) Demo.stateEmpty) = Throw noEvmWalletError.
Proof.
  apply (getConnectedEvmAddresses_none None (mkWagmiAccount false None None None) true
           (Throw (JsErrorObj "ConnectorNotFoundError" (Some "Connector not found.") None))
           (mkWagmiAccount false None None None) Demo.stateEmpty).
  - reflexivity.
  - left. reflexivity.
  - right. do 3 eexists. reflexivity.
Defined.
